(** * agent-rag: index construction and the HTTP handlers

    A shallow embedding of [src/indexing.py] and [api/main.py].

    The third-party services the code calls (the Weaviate client, the
    llama-index readers and splitters, the language-model client) are not
    part of the repository: they appear as fields of a record of external
    behaviours, each call returning a value or raising.  The Python code
    itself (control flow, exception handling, keyword binding, the async
    generators of the streaming handlers) is embedded definition by
    definition. *)

From stdpp Require Import gmap strings list pretty.
From Stdlib Require Import String Ascii Lia.

Local Open Scope string_scope.
Local Open Scope list_scope.

(** ** Python exceptions and fallible computations *)

Inductive exn_class : Type :=
  | ValueError
  | TypeError
  | LookupError
  | OSError
  | RuntimeError.

(** An exception value: its class and [str(e)]. *)
Record exn : Type := Exn { exn_cls : exn_class; exn_msg : string }.

Definition str_of_exn (e : exn) : string := exn_msg e.

Inductive result (A : Type) : Type :=
  | Ok (a : A)
  | Raise (e : exn).
Arguments Ok {A} a.
Arguments Raise {A} e.

Definition is_ok {A} (r : result A) : bool :=
  match r with Ok _ => true | Raise _ => false end.

(** ** The file system seen by [pathlib] *)

Module Fs.

(** A node of the tree: a regular file, a directory with its entries in
    listing order, or something else (socket, fifo, device). *)
#[warnings="-register-all"] Inductive fnode : Type :=
  | RegFile (content : string)
  | Directory (entries : list (string * fnode))
  | Special.

(** The tree and the working directory of the process. *)
Record fsys : Type := Fsys { root : fnode; cwd : list string }.

(** A [pathlib.Path]: anchored at the root or not, and its components. *)
Record path : Type := Path { absolute : bool; parts : list string }.

(** The pieces of a string between separators. *)
Fixpoint components (s : string) : list string :=
  match s with
  | EmptyString => [""]
  | String c s' =>
      if Ascii.eqb c "/" then "" :: components s'
      else match components s' with
           | [] => [String c ""]
           | h :: t => String c h :: t
           end
  end.

Definition starts_with_slash (s : string) : bool :=
  match s with String c _ => Ascii.eqb c "/" | EmptyString => false end.

(** [Path(s)]: empty and [.] components are dropped. *)
Definition parse (s : string) : path :=
  Path (starts_with_slash s)
       (List.filter (fun c => negb (String.eqb c "" || String.eqb c "."))
               (components s)).

Fixpoint join (ps : list string) : string :=
  match ps with
  | [] => ""
  | [c] => c
  | c :: ps' => c +:+ "/" +:+ join ps'
  end.

(** [str(path)]. *)
Definition str (p : path) : string :=
  match absolute p, parts p with
  | false, [] => "."
  | false, ps => join ps
  | true, ps => "/" +:+ join ps
  end.

(** [path / name]. *)
Definition child (p : path) (name : string) : path :=
  Path (absolute p) (parts p ++ [name]).

Fixpoint assoc (name : string) (es : list (string * fnode)) : option fnode :=
  match es with
  | [] => None
  | (n, x) :: es' => if String.eqb n name then Some x else assoc name es'
  end.

(** Walking the tree one component at a time; [up] holds the directories
    passed on the way down, for [..]. *)
Fixpoint walk (up : list fnode) (cur : fnode) (ps : list string) : option fnode :=
  match ps with
  | [] => Some cur
  | c :: ps' =>
      match cur with
      | Directory es =>
          if String.eqb c ".."
          then match up with
               | [] => walk [] cur ps'
               | parent :: up' => walk up' parent ps'
               end
          else match assoc c es with
               | Some x => walk (cur :: up) x ps'
               | None => None
               end
      | _ => None
      end
  end.

Definition resolve (fs : fsys) (p : path) : option fnode :=
  walk [] (root fs) ((if absolute p then [] else cwd fs) ++ parts p).

(** [Path.exists()], [Path.is_dir()], [Path.is_file()]. *)
Definition exists_ (fs : fsys) (p : path) : bool :=
  match resolve fs p with Some _ => true | None => false end.

Definition is_dir (fs : fsys) (p : path) : bool :=
  match resolve fs p with Some (Directory _) => true | _ => false end.

Definition node_is_file (x : fnode) : bool :=
  match x with RegFile _ => true | _ => false end.

(** [path.glob("*")]: the direct children of a directory, each with the node
    it names, in listing order; nothing for a path that is not a
    directory. *)
Definition glob_star (fs : fsys) (p : path) : list (path * fnode) :=
  match resolve fs p with
  | Some (Directory es) => map (fun e => (child p (fst e), snd e)) es
  | _ => []
  end.

End Fs.

(** ** [indexing.get_all_files_from_directory] *)

Definition get_all_files_from_directory (fs : Fs.fsys) (directory_path : string)
  : result (list string) :=
  let path := Fs.parse directory_path in
  if negb (Fs.exists_ fs path) || negb (Fs.is_dir fs path)
  then Raise (Exn ValueError ("Invalid directory path: " +:+ directory_path))
  else Ok (map (fun file => Fs.str (fst file))
               (List.filter (fun file => Fs.node_is_file (snd file))
                       (Fs.glob_star fs path))).

(** ** Documents, nodes and the world the builders act on *)

(** A document loaded from disk. *)
Record document : Type := Document { doc_path : string; doc_text : string }.

(** A chunk of a document.  [node_has_child] is the [CHILD] relationship of
    the hierarchical parser: a leaf is a node without it. *)
Record node : Type := Node {
  node_text : string;
  node_source : string;
  node_has_child : bool
}.

(** A llama-index index object: the nodes held by its vector store and the
    nodes held by its document store. *)
Record index : Type := Index { idx_vectors : list node; idx_docstore : list node }.

Inductive event : Type :=
  | EvConnect                 (* a client connection was opened *)
  | EvClose                   (* [client.close()] *)
  | EvPrint (line : string).  (* [print(...)] *)

(** The state outside the process: the Weaviate server's collections, the
    number of client connections currently open, the index directories
    persisted on disk and what happened so far. *)
Record world : Type := World {
  collections : list (string * list node);
  open_clients : nat;
  persisted : gmap string index;
  events : list event
}.

Definition set_collections (w : world) (c : list (string * list node)) : world :=
  World c (open_clients w) (persisted w) (events w).
Definition set_open_clients (w : world) (n : nat) : world :=
  World (collections w) n (persisted w) (events w).
Definition set_persisted (w : world) (p : gmap string index) : world :=
  World (collections w) (open_clients w) p (events w).
Definition log_event (w : world) (e : event) : world :=
  World (collections w) (open_clients w) (persisted w) (events w ++ [e]).

(** ** A state and exception monad

    A Python statement sequence: each statement sees the state left by the
    previous one; an exception skips the rest and keeps the state. *)

Definition M (S A : Type) : Type := S -> result A * S.

Definition ret {S A} (a : A) : M S A := fun s => (Ok a, s).
Definition raise {S A} (e : exn) : M S A := fun s => (Raise e, s).
Definition bind {S A B} (m : M S A) (k : A -> M S B) : M S B :=
  fun s => match m s with
           | (Ok a, s') => k a s'
           | (Raise e, s') => (Raise e, s')
           end.
Definition get {S} : M S S := fun s => (Ok s, s).
Definition modify {S} (f : S -> S) : M S unit := fun s => (Ok tt, f s).
(** Lift a fallible call that has no effect on the state. *)
Definition call {S A} (r : result A) : M S A := fun s => (r, s).

Notation "'let!' x ':=' m 'in' k" := (bind m (fun x => k))
  (at level 10, x name, m at level 100, k at level 200).
Notation "'run!' m 'in' k" := (bind m (fun _ => k))
  (at level 10, m at level 100, k at level 200).

(** [try: body / except Exception as e: handler(e)].  The handler of the
    source ends in a bare [raise]: it is given the exception and, when it
    returns normally, the exception is raised again. *)
Definition try_except_reraise {S A} (body : M S A) (handler : exn -> M S unit) : M S A :=
  fun s => match body s with
           | (Ok a, s') => (Ok a, s')
           | (Raise e, s') =>
               match handler e s' with
               | (Ok _, s'') => (Raise e, s'')
               | (Raise e', s'') => (Raise e', s'')
               end
           end.

(** [try: body / finally: cleanup].  The cleanup runs on every exit; an
    exception of the cleanup replaces the outcome of the body. *)
Definition try_finally {S A} (body : M S A) (cleanup : M S unit) : M S A :=
  fun s => match body s with
           | (r, s') =>
               match cleanup s' with
               | (Ok _, s'') => (r, s'')
               | (Raise e', s'') => (Raise e', s'')
               end
           end.

(** ** The services outside the repository *)

(** The calls made on the Weaviate client and through it. *)
Inductive wv_op : Type :=
  | OpExists      (* [client.collections.exists] *)
  | OpDelete      (* [client.collections.delete] *)
  | OpCreate      (* [client.collections.create] *)
  | OpStore.      (* [WeaviateVectorStore(...)] *)

(** What the third-party libraries do on one run: each call either gives
    its value or raises.  [index_fault = Some (k, e)] is a [VectorStoreIndex]
    construction that raises [e] after the first [k] nodes were written. *)
Record externals : Type := Externals {
  connect_to_local : result unit;
  weaviate_fault : wv_op -> option exn;
  index_fault : option (nat * exn);
  load_data : list string -> result (list document);
  sentence_splitter : option nat -> option nat -> list document -> result (list node);
  hierarchical_parser : list nat -> list document -> result (list node);
  sentence_window_parser : list document -> result (list node);
  service_context : result unit
}.

(** *** The Weaviate server *)

Module Weaviate.

Definition named (name : string) (c : string * list node) : bool :=
  String.eqb (fst c) name.

Definition exists_ (cs : list (string * list node)) (name : string) : bool :=
  existsb (named name) cs.

Definition delete (cs : list (string * list node)) (name : string)
  : list (string * list node) :=
  List.filter (fun c => negb (named name c)) cs.

(** Creating a collection whose name is taken is refused by the server. *)
Definition create (cs : list (string * list node)) (name : string)
  : result (list (string * list node)) :=
  if exists_ cs name
  then Raise (Exn RuntimeError ("Collection " +:+ name +:+ " already exists"))
  else Ok (cs ++ [(name, [])]).

(** The vector store creates the collection's schema when it is missing. *)
Definition ensure (cs : list (string * list node)) (name : string)
  : list (string * list node) :=
  if exists_ cs name then cs else cs ++ [(name, [])].

(** Objects are added to the collection of that name. *)
Definition add_nodes (cs : list (string * list node)) (name : string) (ns : list node)
  : list (string * list node) :=
  map (fun c => if named name c then (fst c, snd c ++ ns) else c) cs.

(** The collections of a given name, and the number of them. *)
Definition lookup_all (cs : list (string * list node)) (name : string)
  : list (list node) :=
  map snd (List.filter (named name) cs).

Definition count (cs : list (string * list node)) (name : string) : nat :=
  List.length (lookup_all cs name).

End Weaviate.

(** ** [indexing.create_document_index] *)

(** The function's frame: the world and whether the local [client] is
    bound (['client' in locals()]). *)
Definition frame : Type := world * bool.

Definition on_world (f : world -> world) : M frame unit :=
  modify (fun fr : frame => (f (fst fr), snd fr)).

Definition print (line : string) : M frame unit :=
  on_world (fun w => log_event w (EvPrint line)).

Definition server_call (ext : externals) (op : wv_op) : M frame unit :=
  match weaviate_fault ext op with
  | Some e => raise e
  | None => ret tt
  end.

(** [client = weaviate.connect_to_local()]: the name is bound only when the
    call returns. *)
Definition connect (ext : externals) : M frame unit :=
  let! _ := call (connect_to_local ext) in
  modify (fun fr : frame =>
            (log_event (set_open_clients (fst fr) (S (open_clients (fst fr)))) EvConnect,
             true)).

Definition client_close : M frame unit :=
  on_world (fun w => log_event (set_open_clients w (pred (open_clients w))) EvClose).

Definition collections_exists (ext : externals) (name : string) : M frame bool :=
  run! server_call ext OpExists in
  let! fr := get in
  ret (Weaviate.exists_ (collections (fst fr)) name).

Definition collections_delete (ext : externals) (name : string) : M frame unit :=
  run! server_call ext OpDelete in
  on_world (fun w => set_collections w (Weaviate.delete (collections w) name)).

Definition collections_create (ext : externals) (name : string) : M frame unit :=
  run! server_call ext OpCreate in
  let! fr := get in
  let! cs := call (Weaviate.create (collections (fst fr)) name) in
  on_world (fun w => set_collections w cs).

Definition weaviate_vector_store (ext : externals) (name : string) : M frame unit :=
  run! server_call ext OpStore in
  on_world (fun w => set_collections w (Weaviate.ensure (collections w) name)).

Definition vector_store_index (ext : externals) (name : string) (nodes : list node)
  : M frame unit :=
  match index_fault ext with
  | Some (k, e) =>
      run! on_world (fun w => set_collections w
                      (Weaviate.add_nodes (collections w) name (firstn k nodes))) in
      raise e
  | None =>
      on_world (fun w => set_collections w (Weaviate.add_nodes (collections w) name nodes))
  end.

(** The [try] block. *)
Definition create_document_index_try (ext : externals)
    (input_files : list string) (index_name : string)
    (chunk_size chunk_overlap : option nat)
  : M frame unit :=
  run! connect ext in
  let! present := collections_exists ext index_name in
  run! (if present : bool
        then run! collections_delete ext index_name in
             print ("Existing collection " +:+ index_name +:+ " has been deleted.")
        else ret tt) in
  run! collections_create ext index_name in
  run! print "documents collection has been created." in
  let! documents := call (load_data ext input_files) in
  let! nodes := call (sentence_splitter ext chunk_size chunk_overlap documents) in
  run! weaviate_vector_store ext index_name in
  run! vector_store_index ext index_name nodes in
  print "All vector data has been written to Weaviate.".

(** The [except Exception as e] block: print, then [raise]. *)
Definition create_document_index_except (e : exn) : M frame unit :=
  print ("Error occurred: " +:+ str_of_exn e).

(** The [finally] block. *)
Definition create_document_index_finally : M frame unit :=
  let! fr := get in
  if snd fr : bool
  then run! client_close in print "Weaviate connection closed."
  else ret tt.

Definition create_document_index (ext : externals)
    (input_files : list string) (index_name : string)
    (chunk_size chunk_overlap : option nat)
  : M world unit :=
  fun w =>
    match try_finally
            (try_except_reraise
               (create_document_index_try ext input_files index_name chunk_size chunk_overlap)
               create_document_index_except)
            create_document_index_finally
            (w, false)
    with
    | (r, fr) => (r, fst fr)
    end.

(** ** [indexing.build_sentence_window_index] and [indexing.build_automerging_index] *)

Definition embed_model_name : string := "local:/Users/Daglas/dalong.modelsets/bge-m3".

(** [get_leaf_nodes]: the nodes without a child. *)
Definition get_leaf_nodes (nodes : list node) : list node :=
  List.filter (fun n => negb (node_has_child n)) nodes.

(** [index.storage_context.persist(persist_dir=save_dir)]. *)
Definition persist (save_dir : string) (i : index) : M world unit :=
  modify (fun w => set_persisted w (<[save_dir := i]> (persisted w))).

Definition build_sentence_window_index (ext : externals)
    (doc : document) (llm : unit) (embed_model : string) (save_dir : string)
  : M world index :=
  run! call (service_context ext) in
  let! w := get in
  match persisted w !! save_dir with
  | None =>
      (* not os.path.exists(save_dir) *)
      let! nodes := call (sentence_window_parser ext [doc]) in
      let sentence_index := Index nodes nodes in
      run! persist save_dir sentence_index in
      ret sentence_index
  | Some stored =>
      (* load_index_from_storage *)
      ret stored
  end.

(** [chunk_sizes or [2048, 512, 128]]: [None] and the empty list are both
    replaced. *)
Definition chunk_sizes_or_default (chunk_sizes : option (list nat)) : list nat :=
  match chunk_sizes with
  | Some (c :: cs) => c :: cs
  | _ => [2048; 512; 128]
  end.

Definition build_automerging_index (ext : externals)
    (documents : list document) (llm : unit) (embed_model : string)
    (save_dir : string) (chunk_sizes : option (list nat))
  : M world index :=
  let chunk_sizes := chunk_sizes_or_default chunk_sizes in
  let! nodes := call (hierarchical_parser ext chunk_sizes documents) in
  let leaf_nodes := get_leaf_nodes nodes in
  run! call (service_context ext) in
  let! w := get in
  match persisted w !! save_dir with
  | None =>
      let automerging_index := Index leaf_nodes nodes in
      run! persist save_dir automerging_index in
      ret automerging_index
  | Some stored => ret stored
  end.

(** ** Calling a Python function with keyword arguments *)

Module Py.

(** The values the handler passes around. *)
Inductive value : Type :=
  | VNone
  | VStr (s : string)
  | VStrList (l : list string)
  | VIntList (l : list nat)
  | VDocument (d : document)
  | VDocuments (l : list document)
  | VLlm.

(** A declared parameter, with its default when it has one. *)
Record param : Type := Param { p_name : string; p_default : option value }.

Definition kwargs : Type := list (string * value).

Fixpoint lookup (k : string) (kw : kwargs) : option value :=
  match kw with
  | [] => None
  | (k', v) :: kw' => if String.eqb k' k then Some v else lookup k kw'
  end.

Definition declares (sig : list param) (k : string) : bool :=
  existsb (fun p => String.eqb (p_name p) k) sig.

(** The first keyword that names no parameter. *)
Definition unexpected_keyword (sig : list param) (kw : kwargs) : option string :=
  match List.find (fun a => negb (declares sig (fst a))) kw with
  | Some a => Some (fst a)
  | None => None
  end.

(** The parameters without a default that the call leaves unbound. *)
Definition missing_arguments (sig : list param) (kw : kwargs) : list string :=
  map p_name
      (List.filter (fun p => match p_default p, lookup (p_name p) kw with
                             | None, None => true
                             | _, _ => false
                             end) sig).

Definition quote (s : string) : string := "'" +:+ s +:+ "'".

(** ['a'], ['a' and 'b'], ['a', 'b', and 'c']. *)
Fixpoint name_tail (names : list string) : string :=
  match names with
  | [] => ""
  | [z] => "and " +:+ quote z
  | y :: names' => quote y +:+ ", " +:+ name_tail names'
  end.

Definition name_list (names : list string) : string :=
  match names with
  | [] => ""
  | [a] => quote a
  | [a; b] => quote a +:+ " and " +:+ quote b
  | _ => name_tail names
  end.

(** Binding the keywords of a call to the parameters of [fname]: a keyword
    that names no parameter, or a parameter left without a value, is a
    [TypeError] raised before the body runs. *)
Definition bind_keywords (fname : string) (sig : list param) (kw : kwargs)
  : result (list (string * value)) :=
  match unexpected_keyword sig kw with
  | Some k =>
      Raise (Exn TypeError
               (fname +:+ "() got an unexpected keyword argument " +:+ quote k))
  | None =>
      match missing_arguments sig kw with
      | [] =>
          Ok (map (fun p => (p_name p,
                             match lookup (p_name p) kw, p_default p with
                             | Some v, _ => v
                             | None, Some d => d
                             | None, None => VNone
                             end)) sig)
      | ms =>
          Raise (Exn TypeError
                   (fname +:+ "() missing " +:+ pretty (List.length ms) +:+
                    " required positional argument" +:+
                    (match ms with [_] => "" | _ => "s" end) +:+ ": " +:+
                    name_list ms))
      end
  end.

End Py.

(** ** [api/main.py]: the [/build-index] handler *)

(** The declared parameters of the two builders of [indexing.py]. *)
Definition sig_build_sentence_window_index : list Py.param :=
  [ Py.Param "document" None;
    Py.Param "llm" None;
    Py.Param "embed_model" (Some (Py.VStr embed_model_name));
    Py.Param "save_dir" (Some (Py.VStr "sentence_index")) ].

Definition sig_build_automerging_index : list Py.param :=
  [ Py.Param "documents" None;
    Py.Param "llm" None;
    Py.Param "embed_model" (Some (Py.VStr embed_model_name));
    Py.Param "save_dir" (Some (Py.VStr "merging_index"));
    Py.Param "chunk_sizes" (Some Py.VNone) ].

(** A call of [build_sentence_window_index] by keywords: the keywords are
    bound first; a bound value of the wrong type fails inside the body. *)
Definition call_build_sentence_window_index (ext : externals) (kw : Py.kwargs)
  : M world index :=
  let! args := call (Py.bind_keywords "build_sentence_window_index"
                       sig_build_sentence_window_index kw) in
  match Py.lookup "document" args, Py.lookup "llm" args,
        Py.lookup "embed_model" args, Py.lookup "save_dir" args with
  | Some (Py.VDocument d), Some Py.VLlm, Some (Py.VStr em), Some (Py.VStr sd) =>
      build_sentence_window_index ext d tt em sd
  | _, _, _, _ => raise (Exn TypeError "unsupported argument type")
  end.

Definition call_build_automerging_index (ext : externals) (kw : Py.kwargs)
  : M world index :=
  let! args := call (Py.bind_keywords "build_automerging_index"
                       sig_build_automerging_index kw) in
  match Py.lookup "documents" args, Py.lookup "llm" args,
        Py.lookup "embed_model" args, Py.lookup "save_dir" args,
        Py.lookup "chunk_sizes" args with
  | Some (Py.VDocuments ds), Some Py.VLlm, Some (Py.VStr em), Some (Py.VStr sd),
    Some Py.VNone =>
      build_automerging_index ext ds tt em sd None
  | Some (Py.VDocuments ds), Some Py.VLlm, Some (Py.VStr em), Some (Py.VStr sd),
    Some (Py.VIntList cs) =>
      build_automerging_index ext ds tt em sd (Some cs)
  | _, _, _, _, _ => raise (Exn TypeError "unsupported argument type")
  end.

(** Modelled from the spec: [build_basic_fixed_size_index], which [main.py]
    imports from [src.indexing] and [indexing.py] does not define.  The spec
    has one fixed-size builder, taking [input_files], an index name, a chunk
    size and an overlap, that drops and recreates the collection of that
    name: [create_document_index] is the function of [indexing.py] with
    these parameters and this behaviour. *)
Definition build_basic_fixed_size_index (ext : externals)
    (input_files : list string) (index_name : string)
    (chunk_size chunk_overlap : option nat)
  : M world unit :=
  create_document_index ext input_files index_name chunk_size chunk_overlap.

(** [name.endswith(ext)]. *)
Definition ends_with (name ext : string) : bool :=
  String.prefix (String.rev ext) (String.rev name).

Definition matches_extension (file_extension : option string) (name : string) : bool :=
  match file_extension with
  | None => true
  | Some ext => ends_with name ext
  end.

(** Modelled from the spec: [src.utils.get_all_files_from_directory], which
    [main.py] imports and calls with a [file_extension] keyword, and which
    is not among the sources ([indexing.py] has a function of that name
    without the keyword).  The spec gives the inputs as "file paths or
    directory + extension filter": the scan of
    [indexing.get_all_files_from_directory], keeping the regular files whose
    name has the extension when one is given. *)
Definition utils_get_all_files_from_directory (fs : Fs.fsys)
    (directory_path : string) (file_extension : option string)
  : result (list string) :=
  let path := Fs.parse directory_path in
  if negb (Fs.exists_ fs path) || negb (Fs.is_dir fs path)
  then Raise (Exn ValueError ("Invalid directory path: " +:+ directory_path))
  else Ok (map (fun file => Fs.str (fst file))
               (List.filter
                  (fun file => Fs.node_is_file (snd file)
                               && matches_extension file_extension (Fs.str (fst file)))
                  (Fs.glob_star fs path))).

(** [input_path: Union[List[str], str]]. *)
Inductive input_path_t : Type :=
  | PathStr (directory : string)
  | PathList (files : list string).

Record BuildIndexRequest : Type := {
  input_path : input_path_t;
  index_name : string;
  index_type : string;
  file_extension : option string;
  chunk_size : option nat;
  chunk_overlap : option nat;
  chunk_sizes : option (list nat)
}.

(** What a handler gives back: the JSON body of a success, or the
    [HTTPException] it raised. *)
Inductive build_response : Type :=
  | BuildSuccess (message : string) (num_files : nat)
  | HTTPException (status_code : nat) (detail : string).

(** The first statement of the [try] block: [input_files]. *)
Definition resolve_input_files (fs : Fs.fsys) (request : BuildIndexRequest)
  : result (list string) :=
  match input_path request with
  | PathStr directory =>
      utils_get_all_files_from_directory fs directory (file_extension request)
  | PathList files => Ok files
  end.

Definition py_opt_int_list (l : option (list nat)) : Py.value :=
  match l with None => Py.VNone | Some l => Py.VIntList l end.

(** The dispatch on [index_type]. *)
Definition build_index_dispatch (ext : externals) (request : BuildIndexRequest)
    (input_files : list string) : M world unit :=
  if String.eqb (index_type request) "basic" then
    build_basic_fixed_size_index ext input_files (index_name request)
      (chunk_size request) (chunk_overlap request)
  else if String.eqb (index_type request) "automerging" then
    run! call_build_automerging_index ext
           [ ("input_files", Py.VStrList input_files);
             ("index_name", Py.VStr (index_name request));
             ("chunk_sizes", py_opt_int_list (chunk_sizes request)) ] in
    ret tt
  else if String.eqb (index_type request) "sentence_window" then
    run! call_build_sentence_window_index ext
           [ ("input_files", Py.VStrList input_files);
             ("index_name", Py.VStr (index_name request)) ] in
    ret tt
  else
    raise (Exn ValueError ("Invalid index type: " +:+ index_type request)).

(** The [try] block of the handler. *)
Definition build_index_api_try (ext : externals) (fs : Fs.fsys)
    (request : BuildIndexRequest) : M world build_response :=
  let! input_files := call (resolve_input_files fs request) in
  run! (match input_files with
        | [] => raise (Exn ValueError "No valid input files found")
        | _ => ret tt
        end) in
  run! build_index_dispatch ext request input_files in
  ret (BuildSuccess ("Index '" +:+ index_name request +:+ "' built successfully")
                    (List.length input_files)).

(** [except Exception as e: raise HTTPException(status_code=500, detail=str(e))]. *)
Definition build_index_api (ext : externals) (fs : Fs.fsys)
    (request : BuildIndexRequest) (w : world) : build_response * world :=
  match build_index_api_try ext fs request w with
  | (Ok r, w') => (r, w')
  | (Raise e, w') => (HTTPException 500 (str_of_exn e), w')
  end.

(** ** [api/main.py]: the streaming handlers [/query] and [/chat] *)

(** A retrieved chunk. *)
Record source_node : Type := SourceNode { sn_text : string; sn_index : string }.

(** [model.stream(prompt)]: the fragments the model gives, in order, and the
    exception that ends the iteration early when there is one. *)
Record llm_stream : Type := LlmStream { chunks : list string; failure : option exn }.

(** What the code calls outside [main.py]: [src.utils], [src.retrieval],
    the language-model client and [open]. *)
Record services : Type := Services {
  get_timestamp : result string;
  get_chat_file_name : string -> result string;
  basic_query_from_documents : string -> list string -> Z -> result (list source_node);
  print_data_sources : list source_node -> result string;
  model_stream : string -> llm_stream;
  open_fault : string -> option exn
}.

Definition nl : string := String (ascii_of_nat 10) EmptyString.

(** [sep.join(items)]. *)
Fixpoint str_join (sep : string) (items : list string) : string :=
  match items with
  | [] => ""
  | [x] => x
  | x :: items' => x +:+ sep +:+ str_join sep items'
  end.

(** [os.path.join(a, b)]. *)
Definition os_path_join (a b : string) : string :=
  if Fs.starts_with_slash b then b
  else if String.eqb a "" || ends_with a "/" then a +:+ b
  else a +:+ "/" +:+ b.

Record QueryRequest : Type := {
  q_question : string;
  q_index_names : list string;
  q_similarity_top_k : Z;
  q_chat_record_dir : string
}.

Record ChatRequest : Type := {
  c_question : string;
  c_chat_record_dir : string
}.

(** What can be observed of a streamed request, in order. *)
Inductive stream_event : Type :=
  | Sent (fragment : string)                 (* a fragment reached the caller *)
  | Wrote (file : string) (text : string)    (* [open(file, 'w')] and [f.write(text)] *)
  | Printed (line : string).

Definition trace : Type := list stream_event.

(** *** The generators

    [generate()] gives a generator object; nothing of its body runs before
    the first [next].  Each [next] runs the body up to the following
    [yield], to its end ([StopIteration]) or to an exception. *)

Inductive gen_out : Type :=
  | Yielded (fragment : string)
  | StopIteration
  | Raised (e : exn).

(** Where a generator stands: not started; suspended at the [yield] of the
    loop, holding its locals (the text to write around the answer, the
    accumulator, the fragment being yielded, the rest of the model's
    stream); or finished. *)
Inductive gen_state : Type :=
  | Created
  | Suspended (render : string -> string) (full_response : string)
              (chunk : string) (rest : llm_stream)
  | Closed.

(** The [for] loop from its head, and what follows it. *)
Definition stream_loop (sv : services) (chat_record_file : string)
    (render : string -> string) (full_response : string) (response : llm_stream)
    (tr : trace) : gen_out * gen_state * trace :=
  match chunks response with
  | chunk :: more =>
      (Yielded chunk,
       Suspended render full_response chunk (LlmStream more (failure response)),
       tr)
  | [] =>
      match failure response with
      | Some e => (Raised e, Closed, tr)
      | None =>
          match open_fault sv chat_record_file with
          | Some e => (Raised e, Closed, tr)
          | None => (StopIteration, Closed, tr ++ [Wrote chat_record_file (render full_response)])
          end
      end
  end.

Definition query_prompt (context question : string) : string :=
  "Use the following pieces of context to answer the question at the end." +:+ nl +:+
  context +:+ nl +:+ "Question: " +:+ question +:+ " ".

Definition query_transcript (file_name question print_data full_response : string)
  : string :=
  file_name +:+ nl +:+ nl +:+ "[question]:" +:+ nl +:+ nl +:+ question +:+ nl +:+ nl +:+
  "[answer]:" +:+ nl +:+ nl +:+ full_response +:+ nl +:+ nl +:+
  "[source_datas]:" +:+ nl +:+ nl +:+ print_data.

Definition chat_transcript (file_name question full_response : string) : string :=
  file_name +:+ nl +:+ nl +:+ "[question]:" +:+ nl +:+ nl +:+ question +:+ nl +:+ nl +:+
  "[answer]:" +:+ nl +:+ nl +:+ full_response.

(** [next] on the generator of [query_from_documents_api]. *)
Definition query_generate_next (sv : services) (request : QueryRequest)
    (file_name chat_record_file : string) (st : gen_state) (tr : trace)
  : gen_out * gen_state * trace :=
  match st with
  | Created =>
      match basic_query_from_documents sv (q_question request)
              (q_index_names request) (q_similarity_top_k request) with
      | Raise e => (Raised e, Closed, tr)
      | Ok source_nodes =>
          let context := str_join nl (map sn_text source_nodes) in
          match print_data_sources sv source_nodes with
          | Raise e => (Raised e, Closed, tr)
          | Ok print_data =>
              let tr := tr ++ [Printed ("Number of source nodes: " +:+
                                        pretty (List.length source_nodes))] in
              let full_response := "" in
              let prompt := query_prompt context (q_question request) in
              let response := model_stream sv prompt in
              stream_loop sv chat_record_file
                (query_transcript file_name (q_question request) print_data)
                full_response response tr
          end
      end
  | Suspended render full_response chunk rest =>
      (* resuming after [yield chunk.content] *)
      let full_response := full_response +:+ chunk in
      stream_loop sv chat_record_file render full_response rest tr
  | Closed => (StopIteration, Closed, tr)
  end.

(** [next] on the generator of [chat_with_llm_api]. *)
Definition chat_generate_next (sv : services) (request : ChatRequest)
    (file_name chat_record_file : string) (st : gen_state) (tr : trace)
  : gen_out * gen_state * trace :=
  match st with
  | Created =>
      let full_response := "" in
      let response := model_stream sv (c_question request) in
      stream_loop sv chat_record_file
        (chat_transcript file_name (c_question request))
        full_response response tr
  | Suspended render full_response chunk rest =>
      let full_response := full_response +:+ chunk in
      stream_loop sv chat_record_file render full_response rest tr
  | Closed => (StopIteration, Closed, tr)
  end.

(** A generator object: its [next] and where it stands. *)
Record generator : Type := Generator {
  gen_next : gen_state -> trace -> gen_out * gen_state * trace;
  gen_at : gen_state
}.

(** What a streaming handler gives back. *)
Inductive stream_response : Type :=
  | StreamingResponse (body : generator)
  | StreamHTTPException (status_code : nat) (detail : string).

Definition result_bind {A B} (r : result A) (k : A -> result B) : result B :=
  match r with Ok a => k a | Raise e => Raise e end.

(** The [f"{get_timestamp()}<tag>-{get_chat_file_name(question)}"] of both
    handlers. *)
Definition make_file_name (sv : services) (tag question : string) : result string :=
  result_bind (get_timestamp sv) (fun ts =>
  result_bind (get_chat_file_name sv question) (fun name =>
  Ok (ts +:+ tag +:+ "-" +:+ name))).

Definition query_from_documents_api (sv : services) (request : QueryRequest)
  : stream_response :=
  match make_file_name sv "RAG" (q_question request) with
  | Ok file_name =>
      let chat_record_file :=
        os_path_join (q_chat_record_dir request) (file_name +:+ ".md") in
      StreamingResponse
        (Generator (query_generate_next sv request file_name chat_record_file) Created)
  | Raise e => StreamHTTPException 500 (str_of_exn e)
  end.

Definition chat_with_llm_api (sv : services) (request : ChatRequest)
  : stream_response :=
  match make_file_name sv "Chat" (c_question request) with
  | Ok file_name =>
      let chat_record_file :=
        os_path_join (c_chat_record_dir request) (file_name +:+ ".md") in
      StreamingResponse
        (Generator (chat_generate_next sv request file_name chat_record_file) Created)
  | Raise e => StreamHTTPException 500 (str_of_exn e)
  end.

(** *** Sending the body

    The framework takes fragments from the generator one [next] at a time
    and sends each on before asking for the following one. *)

Inductive outcome : Type :=
  | Completed
  | Aborted (e : exn)
  | OutOfFuel.

Fixpoint drain (fuel : nat)
    (next : gen_state -> trace -> gen_out * gen_state * trace)
    (st : gen_state) (tr : trace) : outcome * trace :=
  match fuel with
  | O => (OutOfFuel, tr)
  | S fuel' =>
      match next st tr with
      | (Yielded fragment, st', tr') => drain fuel' next st' (tr' ++ [Sent fragment])
      | (StopIteration, _, tr') => (Completed, tr')
      | (Raised e, _, tr') => (Aborted e, tr')
      end
  end.

Definition send_body (fuel : nat) (g : generator) : outcome * trace :=
  drain fuel (gen_next g) (gen_at g) [].

(** What a caller observes of a handled request: the error response, or the
    way the streamed body went. *)
Inductive observed : Type :=
  | ErrorResponse (status_code : nat) (detail : string)
  | Streamed (how : outcome) (tr : trace).

Definition serve (fuel : nat) (r : stream_response) : observed :=
  match r with
  | StreamHTTPException code detail => ErrorResponse code detail
  | StreamingResponse g =>
      match send_body fuel g with (how, tr) => Streamed how tr end
  end.

(** The fragments sent and the files written, read off a trace. *)
Definition fragments_sent (tr : trace) : list string :=
  flat_map (fun ev => match ev with Sent s => [s] | _ => [] end) tr.

Definition files_written (tr : trace) : list (string * string) :=
  flat_map (fun ev => match ev with Wrote f t => [(f, t)] | _ => [] end) tr.

Definition concat_str (l : list string) : string :=
  fold_right String.append "" l.

(** ** Definitions used to state and check the properties *)

(** A small tree used to run the definitions: [/data] holds two regular
    files, a sub-directory with a file of its own, and a socket. *)
Definition sample_fs : Fs.fsys :=
  Fs.Fsys
    (Fs.Directory
       [ ("data", Fs.Directory
                    [ ("a.txt", Fs.RegFile "Paris is the capital of France.");
                      ("sub", Fs.Directory [ ("deep.txt", Fs.RegFile "nested") ]);
                      ("b.md", Fs.RegFile "notes");
                      ("sock", Fs.Special) ]);
         ("empty", Fs.Directory []);
         ("readme", Fs.RegFile "hello") ])
    [].

(** Running a definition by cases on what each call gives: a case split on
    the innermost [match] of a hypothesis, or of the goal. *)
Ltac case_in H :=
  match type of H with
  | context [match ?x with _ => _ end] =>
      lazymatch x with
      | context [match _ with _ => _ end] => fail
      | _ => destruct x eqn:?; simpl in H; try discriminate H
      end
  end.

Ltac case_goal :=
  match goal with
  | |- context [match ?x with _ => _ end] =>
      lazymatch x with
      | context [match _ with _ => _ end] => fail
      | _ => destruct x eqn:?; simpl
      end
  end.

Ltac unfold_create_document_index :=
  unfold create_document_index, try_finally, try_except_reraise,
    create_document_index_try, create_document_index_except,
    create_document_index_finally, connect, collections_exists,
    collections_delete, collections_create, weaviate_vector_store,
    vector_store_index, server_call, print, on_world, bind, call, get, modify,
    ret, raise.

(** Reading the events of a run. *)
Definition is_connect (e : event) : bool :=
  match e with EvConnect => true | _ => false end.
Definition is_close (e : event) : bool :=
  match e with EvClose => true | _ => false end.

(** Scanning what happened: is a connection open at the end? *)
Definition connection_left_open (l : list event) : bool :=
  fold_left (fun o e => match e with
                        | EvConnect => true
                        | EvClose => false
                        | EvPrint _ => o
                        end) l false.

(** Services that never raise: a file [f] holds the text ["text of f"], and
    every splitter makes one node of each document. *)
Definition plain_node (d : document) : node :=
  Node (doc_text d) (doc_path d) false.

Definition sample_ext : externals :=
  Externals (Ok tt) (fun _ => None) None
    (fun files => Ok (map (fun f => Document f ("text of " +:+ f)) files))
    (fun _ _ docs => Ok (map plain_node docs))
    (fun _ docs => Ok (map plain_node docs))
    (fun docs => Ok (map plain_node docs))
    (Ok tt).

(** Nothing on the server, nothing persisted, nothing open. *)
Definition empty_world : world := World [] 0 ∅ [].

(** The world after the index [Docs] was built from [a.txt], and after it
    was built again from [b.txt]. *)
Definition world_after_first : world :=
  Eval vm_compute in
    snd (create_document_index sample_ext ["a.txt"] "Docs" (Some 1024) (Some 200)
           empty_world).

Definition world_after_second : world :=
  Eval vm_compute in
    snd (create_document_index sample_ext ["b.txt"] "Docs" (Some 1024) (Some 200)
           world_after_first).

(** The message of the [TypeError] of the call made for [index_type]. *)
Definition directory_builder_error (index_type : string) : string :=
  if String.eqb index_type "automerging"
  then "build_automerging_index() got an unexpected keyword argument 'input_files'"
  else "build_sentence_window_index() got an unexpected keyword argument 'input_files'".

(** A request with the defaults of [BuildIndexRequest]. *)
Definition sample_request (path : input_path_t) (type : string) : BuildIndexRequest :=
  {| input_path := path; index_name := "Docs"; index_type := type;
     file_extension := None; chunk_size := Some 1024; chunk_overlap := Some 200;
     chunk_sizes := None |}.

(** [needle] occurs in [hay]. *)
Definition contains (hay needle : string) : Prop :=
  exists before after, hay = before +:+ needle +:+ after.

Fixpoint containsb (hay needle : string) : bool :=
  String.prefix needle hay
  || match hay with
     | EmptyString => false
     | String _ hay' => containsb hay' needle
     end.

(** The three values of [index_type] the handler dispatches on. *)
Definition known_index_type (t : string) : bool :=
  String.eqb t "basic" || String.eqb t "automerging" || String.eqb t "sentence_window".

(** A directory request with an extension filter. *)
Definition sample_txt_request : BuildIndexRequest :=
  {| input_path := PathStr "/data"; index_name := "Docs"; index_type := "basic";
     file_extension := Some ".txt"; chunk_size := Some 1024;
     chunk_overlap := Some 200; chunk_sizes := None |}.

(** What the framework does with the result of one [next]. *)
Definition continue (fuel : nat)
    (next : gen_state -> trace -> gen_out * gen_state * trace)
    (r : gen_out * gen_state * trace) : outcome * trace :=
  match r with
  | (Yielded fragment, st', tr') => drain fuel next st' (tr' ++ [Sent fragment])
  | (StopIteration, _, tr') => (Completed, tr')
  | (Raised e, _, tr') => (Aborted e, tr')
  end.

(** How a stream that is not cut short by lack of fuel ends: with the
    model's exception, with the exception of [open], or with the transcript
    written, in each case after every fragment was sent. *)
Definition loop_end (sv : services) (file : string) (render : string -> string)
    (full : string) (response : llm_stream) (tr : trace) : outcome * trace :=
  match failure response with
  | Some e => (Aborted e, tr ++ map Sent (chunks response))
  | None =>
      match open_fault sv file with
      | Some e => (Aborted e, tr ++ map Sent (chunks response))
      | None =>
          (Completed,
           tr ++ map Sent (chunks response)
              ++ [Wrote file (render (full +:+ concat_str (chunks response)))])
      end
  end.

(** The trace of a completed stream: the transcript is the last thing that
    happens and the only write, every fragment was sent before it, and its
    text is [render] of the fragments sent, concatenated in order. *)
Definition transcript_after_stream (tr : trace) (file : string)
    (render : string -> string) : Prop :=
  exists before,
    tr = before ++ [Wrote file (render (concat_str (fragments_sent tr)))] /\
    files_written before = [] /\
    fragments_sent before = fragments_sent tr.

(** Services used to run the handlers: the model answers in two fragments. *)
Definition sample_services : services :=
  Services (Ok "20240101-")
    (fun _ => Ok "capital")
    (fun _ _ _ => Ok [SourceNode "Paris is the capital of France." "docs"])
    (fun _ => Ok "sources")
    (fun _ => LlmStream ["Par"; "is"] None)
    (fun _ => None).

(** The same, with a model whose stream breaks after the first fragment. *)
Definition breaking_services : services :=
  Services (Ok "20240101-")
    (fun _ => Ok "capital")
    (fun _ _ _ => Ok [SourceNode "Paris is the capital of France." "docs"])
    (fun _ => Ok "sources")
    (fun _ => LlmStream ["Par"] (Some (Exn RuntimeError "connection reset")))
    (fun _ => None).

Definition sample_query : QueryRequest :=
  {| q_question := "What is the capital of France?"; q_index_names := ["docs"];
     q_similarity_top_k := 12; q_chat_record_dir := "/records" |}.

Definition sample_chat : ChatRequest :=
  {| c_question := "Hello"; c_chat_record_dir := "/records/" |}.

(** What is observed of the two sample requests. *)
Definition sample_query_trace : trace :=
  Eval vm_compute in
    match serve 5 (query_from_documents_api sample_services sample_query) with
    | Streamed _ tr => tr
    | ErrorResponse _ _ => []
    end.

Definition sample_chat_trace : trace :=
  Eval vm_compute in
    match serve 5 (chat_with_llm_api sample_services sample_chat) with
    | Streamed _ tr => tr
    | ErrorResponse _ _ => []
    end.

(** ** [indexing.delete_document_collection] *)

(** The four statements of the function, in order; there is no [try]. *)
Definition delete_document_collection (ext : externals) (index_name : string)
  : M world unit :=
  fun w =>
    match (run! connect ext in
           run! collections_delete ext index_name in
           run! print "documents collection has been deleted." in
           client_close) (w, false)
    with
    | (r, fr) => (r, fst fr)
    end.

(** [file.is_file()] on a path: the path is resolved again. *)
Definition path_is_file (fs : Fs.fsys) (p : Fs.path) : bool :=
  match Fs.resolve fs p with
  | Some x => Fs.node_is_file x
  | None => false
  end.

Ltac unfold_delete_document_collection :=
  unfold delete_document_collection, connect, collections_delete, client_close,
    server_call, print, on_world, bind, call, get, modify, ret, raise.

(** Services like [sample_ext] with one call that raises: the connection,
    the reader, the deletion of a collection, the hierarchical parser. *)
Definition offline_ext : externals :=
  Externals (Raise (Exn OSError "connection refused")) (fun _ => None) None
    (load_data sample_ext) (sentence_splitter sample_ext)
    (hierarchical_parser sample_ext) (sentence_window_parser sample_ext) (Ok tt).

Definition unreadable_ext : externals :=
  Externals (Ok tt) (fun _ => None) None
    (fun _ => Raise (Exn OSError "file not found"))
    (sentence_splitter sample_ext)
    (hierarchical_parser sample_ext) (sentence_window_parser sample_ext) (Ok tt).

Definition undeletable_ext : externals :=
  Externals (Ok tt)
    (fun op => match op with
               | OpDelete => Some (Exn RuntimeError "delete refused")
               | _ => None
               end)
    None
    (load_data sample_ext) (sentence_splitter sample_ext)
    (hierarchical_parser sample_ext) (sentence_window_parser sample_ext) (Ok tt).

Definition unparsable_ext : externals :=
  Externals (Ok tt) (fun _ => None) None
    (load_data sample_ext) (sentence_splitter sample_ext)
    (fun _ _ => Raise (Exn ValueError "cannot parse"))
    (fun _ => Raise (Exn ValueError "cannot parse")) (Ok tt).

(** A world whose directory [merging_index] holds an index. *)
Definition stored_index : index :=
  Index [Node "old text" "old.txt" false] [Node "old text" "old.txt" false].

Definition world_with_index : world :=
  set_persisted empty_world (<["merging_index" := stored_index]> ∅).

(** Services like [sample_services] where the transcript cannot be opened,
    and where the retrieval does not know the index. *)
Definition unwritable_services : services :=
  Services (Ok "20240101-")
    (fun _ => Ok "capital")
    (fun _ _ _ => Ok [SourceNode "Paris is the capital of France." "docs"])
    (fun _ => Ok "sources")
    (fun _ => LlmStream ["Par"; "is"] None)
    (fun _ => Some (Exn OSError "No such file or directory")).

Definition unknown_index_services : services :=
  Services (Ok "20240101-")
    (fun _ => Ok "capital")
    (fun _ _ _ => Raise (Exn LookupError "unknown index"))
    (fun _ => Ok "sources")
    (fun _ => LlmStream ["Par"; "is"] None)
    (fun _ => None).

(** * Properties *)

(** ** Directory listing *)

Lemma exists_and_is_dir (fs : Fs.fsys) (p : Fs.path) :
  negb (Fs.exists_ fs p) || negb (Fs.is_dir fs p) = negb (Fs.is_dir fs p).
Proof.
  unfold Fs.exists_, Fs.is_dir.
  destruct (Fs.resolve fs p) as [[ | | ] | ]; reflexivity.
Qed.

Lemma is_dir_resolve (fs : Fs.fsys) (p : Fs.path) :
  Fs.is_dir fs p = true <-> exists entries, Fs.resolve fs p = Some (Fs.Directory entries).
Proof.
  unfold Fs.is_dir.
  destruct (Fs.resolve fs p) as [[ | es | ] | ]; split;
    try discriminate; try (intros [es' H]; discriminate).
  - intros _. exists es. reflexivity.
  - reflexivity.
Qed.

Example get_all_files_sample :
  get_all_files_from_directory sample_fs "/data" = Ok ["/data/a.txt"; "/data/b.md"].
Proof. reflexivity. Qed.

Example get_all_files_not_a_directory :
  get_all_files_from_directory sample_fs "/readme"
  = Raise (Exn ValueError "Invalid directory path: /readme").
Proof. reflexivity. Qed.

Example get_all_files_missing :
  get_all_files_from_directory sample_fs "/nowhere"
  = Raise (Exn ValueError "Invalid directory path: /nowhere").
Proof. reflexivity. Qed.

(** C10. [get_all_files_from_directory p] raises exactly when [p] does not
    exist or is not a directory, and what it raises is a [ValueError];
    otherwise it returns the paths of exactly the entries of [p] that are
    regular files, in listing order: sub-directories (and so whatever is
    nested in them) and other non-files are left out, and no file is left
    out for its name. *)
Theorem get_all_files_from_directory_spec (fs : Fs.fsys) (p : string) :
  (is_ok (get_all_files_from_directory fs p) = false <->
   Fs.exists_ fs (Fs.parse p) = false \/ Fs.is_dir fs (Fs.parse p) = false) /\
  (forall e, get_all_files_from_directory fs p = Raise e ->
             e = Exn ValueError ("Invalid directory path: " +:+ p)) /\
  (forall entries,
     Fs.resolve fs (Fs.parse p) = Some (Fs.Directory entries) ->
     get_all_files_from_directory fs p
     = Ok (map (fun e => Fs.str (Fs.child (Fs.parse p) (fst e)))
               (List.filter (fun e => Fs.node_is_file (snd e)) entries)) /\
     forall name x, In (name, x) entries ->
       (In (name, x) (List.filter (fun e => Fs.node_is_file (snd e)) entries)
        <-> exists content, x = Fs.RegFile content)).
Proof.
  unfold get_all_files_from_directory.
  rewrite exists_and_is_dir.
  split; [ | split ].
  - unfold Fs.exists_, Fs.is_dir.
    destruct (Fs.resolve fs (Fs.parse p)) as [[ | es | ] | ]; simpl;
      split; intros H; try reflexivity; try discriminate;
      try (left; reflexivity); try (right; reflexivity).
    destruct H; discriminate.
  - intros e. destruct (Fs.is_dir fs (Fs.parse p)); simpl.
    + discriminate.
    + intros H. injection H as <-. reflexivity.
  - intros entries Hres.
    split.
    + unfold Fs.is_dir, Fs.glob_star. rewrite Hres. simpl. f_equal.
      clear Hres.
      induction entries as [ | [n x] es IH ]; simpl.
      * reflexivity.
      * destruct (Fs.node_is_file x); simpl; rewrite IH; reflexivity.
    + intros name x Hin. rewrite filter_In. simpl.
      split.
      * intros [_ Hf]. destruct x; try discriminate. eexists. reflexivity.
      * intros [content ->]. split; [ assumption | reflexivity ].
Qed.

Lemma get_all_files_from_directory_spec_witness :
  Fs.resolve sample_fs (Fs.parse "/data") <> None /\
  get_all_files_from_directory sample_fs "/data" = Ok ["/data/a.txt"; "/data/b.md"].
Proof.
  split.
  - discriminate.
  - destruct (get_all_files_from_directory_spec sample_fs "/data") as (_ & _ & H).
    destruct (H _ eq_refl) as [Heq _].
    rewrite Heq. reflexivity.
Defined.

(** ** The Weaviate collections *)

Section WeaviateFacts.

Variable name : string.

Lemma lookup_all_app (cs1 cs2 : list (string * list node)) :
  Weaviate.lookup_all (cs1 ++ cs2) name
  = Weaviate.lookup_all cs1 name ++ Weaviate.lookup_all cs2 name.
Proof.
  unfold Weaviate.lookup_all. rewrite List.filter_app, List.map_app. reflexivity.
Qed.

Lemma lookup_all_absent (cs : list (string * list node)) :
  Weaviate.exists_ cs name = false -> Weaviate.lookup_all cs name = [].
Proof.
  unfold Weaviate.exists_, Weaviate.lookup_all.
  induction cs as [ | c cs IH ]; simpl; [ reflexivity | ].
  destruct (Weaviate.named name c); simpl; [ discriminate | exact IH ].
Qed.

Lemma exists_delete (cs : list (string * list node)) :
  Weaviate.exists_ (Weaviate.delete cs name) name = false.
Proof.
  unfold Weaviate.exists_, Weaviate.delete.
  induction cs as [ | c cs IH ]; simpl; [ reflexivity | ].
  destruct (Weaviate.named name c) eqn:E; simpl; [ exact IH | ].
  rewrite E. exact IH.
Qed.

Lemma lookup_all_new :
  Weaviate.lookup_all [(name, @nil node)] name = [[]].
Proof.
  unfold Weaviate.lookup_all, Weaviate.named. simpl.
  rewrite String.eqb_refl. reflexivity.
Qed.

Lemma exists_new (cs : list (string * list node)) :
  Weaviate.exists_ (cs ++ [(name, [])]) name = true.
Proof.
  unfold Weaviate.exists_. rewrite existsb_app. simpl.
  unfold Weaviate.named at 2. simpl. rewrite String.eqb_refl.
  apply orb_true_iff. right. reflexivity.
Qed.

Lemma lookup_all_add_nodes (cs : list (string * list node)) (ns : list node) :
  Weaviate.lookup_all (Weaviate.add_nodes cs name ns) name
  = map (fun l => l ++ ns) (Weaviate.lookup_all cs name).
Proof.
  unfold Weaviate.lookup_all, Weaviate.add_nodes.
  induction cs as [ | c cs IH ]; simpl; [ reflexivity | ].
  destruct (Weaviate.named name c) eqn:E; simpl.
  - unfold Weaviate.named in *. simpl. rewrite E. simpl. f_equal. exact IH.
  - rewrite E. exact IH.
Qed.

Variable other : string.
Hypothesis other_ne : other <> name.

Lemma named_other (c : string * list node) :
  Weaviate.named name c = true -> Weaviate.named other c = false.
Proof.
  unfold Weaviate.named. intros H%String.eqb_eq.
  apply String.eqb_neq. congruence.
Qed.

Lemma lookup_all_delete_other (cs : list (string * list node)) :
  Weaviate.lookup_all (Weaviate.delete cs name) other = Weaviate.lookup_all cs other.
Proof.
  unfold Weaviate.lookup_all, Weaviate.delete.
  induction cs as [ | c cs IH ]; simpl; [ reflexivity | ].
  destruct (Weaviate.named name c) eqn:E; simpl.
  - rewrite (named_other c E). exact IH.
  - destruct (Weaviate.named other c); simpl; rewrite IH; reflexivity.
Qed.

Lemma lookup_all_new_other :
  Weaviate.lookup_all [(name, @nil node)] other = [].
Proof.
  unfold Weaviate.lookup_all. simpl.
  rewrite (named_other (name, [])); [ reflexivity | ].
  unfold Weaviate.named. simpl. apply String.eqb_refl.
Qed.

Lemma lookup_all_add_nodes_other (cs : list (string * list node)) (ns : list node) :
  Weaviate.lookup_all (Weaviate.add_nodes cs name ns) other
  = Weaviate.lookup_all cs other.
Proof.
  unfold Weaviate.lookup_all, Weaviate.add_nodes.
  induction cs as [ | c cs IH ]; simpl; [ reflexivity | ].
  destruct (Weaviate.named name c) eqn:E; simpl.
  - rewrite (named_other c E).
    assert (Weaviate.named other (c.1, c.2 ++ ns) = false) as ->.
    { unfold Weaviate.named in *. simpl. apply (named_other c E). }
    exact IH.
  - destruct (Weaviate.named other c); simpl; rewrite IH; reflexivity.
Qed.

End WeaviateFacts.

(** ** [create_document_index] *)

(** C7. Whatever the services do (each call may return or raise), a run of
    [create_document_index] leaves as many client connections open as it
    found; a connection is opened exactly when [connect_to_local] returns,
    it is then closed as well, and no connection is open when the function
    exits. *)
Theorem create_document_index_closes_client (ext : externals)
    (input_files : list string) (name : string) (chunk_size chunk_overlap : option nat)
    (w : world) :
  let w' := snd (create_document_index ext input_files name chunk_size chunk_overlap w) in
  open_clients w' = open_clients w /\
  exists new,
    events w' = events w ++ new /\
    existsb is_connect new = is_ok (connect_to_local ext) /\
    existsb is_close new = is_ok (connect_to_local ext) /\
    connection_left_open new = false.
Proof.
  unfold_create_document_index. simpl.
  repeat case_goal.
  all: (split; [ reflexivity | ]).
  all: eexists; split; [ rewrite <- ?app_assoc; reflexivity | ].
  all: simpl; auto.
Qed.

Lemma delete_absent (name : string) (cs : list (string * list node)) :
  Weaviate.exists_ cs name = false -> Weaviate.delete cs name = cs.
Proof.
  unfold Weaviate.exists_, Weaviate.delete.
  induction cs as [ | c cs IH ]; simpl; [ reflexivity | ].
  destruct (Weaviate.named name c); simpl; [ discriminate | ].
  intros H. rewrite (IH H). reflexivity.
Qed.

(** A build that returns went through every step: the documents were loaded
    and split, and the collections are the old ones without those of that
    name, then one new collection of that name holding the nodes. *)
Lemma create_document_index_ok (ext : externals) (files : list string) (name : string)
    (cs co : option nat) (w w' : world) :
  create_document_index ext files name cs co w = (Ok tt, w') ->
  exists documents nodes,
    load_data ext files = Ok documents /\
    sentence_splitter ext cs co documents = Ok nodes /\
    collections w'
    = Weaviate.add_nodes (Weaviate.delete (collections w) name ++ [(name, [])])
        name nodes.
Proof.
  unfold_create_document_index.
  intros H. simpl in H.
  repeat case_in H.
  - injection H as <-. simpl.
    unfold Weaviate.create in *. rewrite exists_delete in *.
    match goal with E : Ok _ = Ok _ |- _ => injection E as <- end.
    unfold Weaviate.ensure. rewrite exists_new.
    eauto.
  - injection H as <-. simpl.
    unfold Weaviate.create in *.
    match goal with E : Weaviate.exists_ _ _ = false |- _ =>
      rewrite E in *; rewrite (delete_absent _ _ E) end.
    match goal with E : Ok _ = Ok _ |- _ => injection E as <- end.
    unfold Weaviate.ensure. rewrite exists_new.
    eauto.
Qed.

(** When no service raises, the build returns. *)
Lemma create_document_index_returns (ext : externals) (files : list string)
    (name : string) (cs co : option nat) (w : world) documents nodes :
  connect_to_local ext = Ok tt ->
  (forall op, weaviate_fault ext op = None) ->
  index_fault ext = None ->
  load_data ext files = Ok documents ->
  sentence_splitter ext cs co documents = Ok nodes ->
  exists w', create_document_index ext files name cs co w = (Ok tt, w').
Proof.
  intros Hc Hf Hi Hl Hs.
  unfold_create_document_index. simpl.
  unfold Weaviate.create.
  repeat progress (rewrite ?Hc, ?Hf, ?Hi, ?Hl, ?Hs; simpl).
  destruct (Weaviate.exists_ (collections w) name) eqn:E; simpl.
  - repeat progress (rewrite ?Hf, ?exists_delete, ?Hi, ?Hl, ?Hs; simpl). eauto.
  - repeat progress (rewrite ?Hf, ?E, ?Hi, ?Hl, ?Hs; simpl). eauto.
Qed.

(** After a build by [create_document_index] that returns there is exactly
    one collection of that name, holding the nodes of this build. *)
Lemma create_document_index_one_collection (ext : externals) (files : list string)
    (name : string) (cs co : option nat) (w w' : world) :
  create_document_index ext files name cs co w = (Ok tt, w') ->
  exists documents nodes,
    load_data ext files = Ok documents /\
    sentence_splitter ext cs co documents = Ok nodes /\
    Weaviate.lookup_all (collections w') name = [nodes] /\
    Weaviate.count (collections w') name = 1 /\
    forall other, other <> name ->
      Weaviate.lookup_all (collections w') other
      = Weaviate.lookup_all (collections w) other.
Proof.
  intros H.
  destruct (create_document_index_ok _ _ _ _ _ _ _ H)
    as (documents & nodes & Hload & Hsplit & Hcs).
  exists documents, nodes.
  assert (Weaviate.lookup_all (collections w') name = [nodes]) as Hone.
  { rewrite Hcs, lookup_all_add_nodes, lookup_all_app, lookup_all_new.
    rewrite (lookup_all_absent _ _ (exists_delete name (collections w))).
    reflexivity. }
  repeat split; try assumption.
  - unfold Weaviate.count. rewrite Hone. reflexivity.
  - intros other Hne.
    rewrite Hcs, (lookup_all_add_nodes_other name other Hne), lookup_all_app.
    rewrite (lookup_all_new_other name other Hne), app_nil_r.
    apply (lookup_all_delete_other name other Hne).
Qed.

(** The two builders that persist to a directory leave the collections of
    the server alone, and give back what the directory holds when it is
    there. *)
Lemma build_automerging_index_collections (ext : externals)
    (documents : list document) (embed_model save_dir : string)
    (sizes : option (list nat)) (w : world) :
  let r := build_automerging_index ext documents tt embed_model save_dir sizes w in
  collections (snd r) = collections w /\
  forall stored nodes,
    persisted w !! save_dir = Some stored ->
    hierarchical_parser ext (chunk_sizes_or_default sizes) documents = Ok nodes ->
    service_context ext = Ok tt ->
    r = (Ok stored, w).
Proof.
  cbn zeta. unfold build_automerging_index, persist, bind, call, get, modify, ret.
  split.
  - destruct (hierarchical_parser ext (chunk_sizes_or_default sizes) documents);
      [ | reflexivity ].
    destruct (service_context ext); [ | reflexivity ].
    destruct (persisted w !! save_dir); reflexivity.
  - intros stored nodes Hp Hn Hs. rewrite Hn, Hs, Hp. reflexivity.
Qed.

Lemma build_sentence_window_index_collections (ext : externals)
    (doc : document) (embed_model save_dir : string) (w : world) :
  let r := build_sentence_window_index ext doc tt embed_model save_dir w in
  collections (snd r) = collections w /\
  forall stored,
    persisted w !! save_dir = Some stored ->
    service_context ext = Ok tt ->
    r = (Ok stored, w).
Proof.
  cbn zeta. unfold build_sentence_window_index, persist, bind, call, get, modify, ret.
  split.
  - destruct (service_context ext); [ | reflexivity ].
    destruct (persisted w !! save_dir); [ reflexivity | ].
    destruct (sentence_window_parser ext [doc]); reflexivity.
  - intros stored Hp Hs. rewrite Hs, Hp. reflexivity.
Qed.

(** C1, as the code has it.  For the fixed-size strategy, a build by
    [create_document_index] that returns leaves exactly one collection of
    the given name, holding exactly the nodes this build made of its input
    files, whatever collections of that name there were before (so after
    two builds only the nodes of the second are there); the collections of
    other names are as they were.  [build_automerging_index] and
    [build_sentence_window_index] have no index name and leave the
    collections of the server as they are; when their directory is already
    persisted they give back the index stored there. *)
Theorem create_document_index_replaces :
  (forall (ext : externals) (files : list string) (name : string)
          (cs co : option nat) (w w' : world),
     create_document_index ext files name cs co w = (Ok tt, w') ->
     exists documents nodes,
       load_data ext files = Ok documents /\
       sentence_splitter ext cs co documents = Ok nodes /\
       Weaviate.lookup_all (collections w') name = [nodes] /\
       Weaviate.count (collections w') name = 1 /\
       forall other, other <> name ->
         Weaviate.lookup_all (collections w') other
         = Weaviate.lookup_all (collections w) other) /\
  (forall (ext : externals) (documents : list document)
          (embed_model save_dir : string) (sizes : option (list nat)) (w : world),
     let r := build_automerging_index ext documents tt embed_model save_dir sizes w in
     collections (snd r) = collections w /\
     forall stored nodes,
       persisted w !! save_dir = Some stored ->
       hierarchical_parser ext (chunk_sizes_or_default sizes) documents = Ok nodes ->
       service_context ext = Ok tt ->
       r = (Ok stored, w)) /\
  (forall (ext : externals) (doc : document) (embed_model save_dir : string)
          (w : world),
     let r := build_sentence_window_index ext doc tt embed_model save_dir w in
     collections (snd r) = collections w /\
     forall stored,
       persisted w !! save_dir = Some stored ->
       service_context ext = Ok tt ->
       r = (Ok stored, w)).
Proof.
  split; [ | split ].
  - apply create_document_index_one_collection.
  - apply build_automerging_index_collections.
  - apply build_sentence_window_index_collections.
Qed.

Lemma create_document_index_replaces_witness :
  create_document_index sample_ext ["a.txt"] "Docs" (Some 1024) (Some 200) empty_world
  = (Ok tt, world_after_first) /\
  create_document_index sample_ext ["b.txt"] "Docs" (Some 1024) (Some 200)
    world_after_first
  = (Ok tt, world_after_second) /\
  Weaviate.lookup_all (collections world_after_first) "Docs"
  = [[Node "text of a.txt" "a.txt" false]] /\
  Weaviate.lookup_all (collections world_after_second) "Docs"
  = [[Node "text of b.txt" "b.txt" false]].
Proof.
  assert (create_document_index sample_ext ["a.txt"] "Docs" (Some 1024) (Some 200)
            empty_world = (Ok tt, world_after_first)) as E1
    by (vm_compute; reflexivity).
  assert (create_document_index sample_ext ["b.txt"] "Docs" (Some 1024) (Some 200)
            world_after_first = (Ok tt, world_after_second)) as E2
    by (vm_compute; reflexivity).
  destruct (proj1 create_document_index_replaces _ _ _ _ _ _ _ E1)
    as (d1 & n1 & Hl1 & Hs1 & Hone1 & _).
  destruct (proj1 create_document_index_replaces _ _ _ _ _ _ _ E2)
    as (d2 & n2 & Hl2 & Hs2 & Hone2 & _).
  vm_compute in Hl1, Hl2. injection Hl1 as <-. injection Hl2 as <-.
  vm_compute in Hs1, Hs2. injection Hs1 as <-. injection Hs2 as <-.
  split; [ exact E1 | ].
  split; [ exact E2 | ].
  split; [ exact Hone1 | exact Hone2 ].
Defined.

(** C1 fails for the hierarchical strategy: [build_automerging_index] takes
    no index name and writes to no Weaviate collection.  A build that
    returns leaves the server without any collection, and a second build
    into the same directory with other documents returns the index of the
    first. *)
Lemma build_automerging_index_counterexample :
  let first := [Document "a.txt" "first text"] in
  let second := [Document "a.txt" "second text"] in
  let run1 := build_automerging_index sample_ext first tt embed_model_name "docs" None
                empty_world in
  let run2 := build_automerging_index sample_ext second tt embed_model_name "docs" None
                (snd run1) in
  is_ok (fst run1) = true /\
  Weaviate.count (collections (snd run1)) "docs" = 0 /\
  fst run2 = fst run1 /\
  fst run2 = Ok (Index [Node "first text" "a.txt" false] [Node "first text" "a.txt" false]) /\
  Weaviate.count (collections (snd run2)) "docs" <> 1.
Proof.
  vm_compute. repeat split. discriminate.
Qed.

(** ** The [/build-index] handler *)

Lemma automerging_call_rejected (ext : externals) (files : list string) (name : string)
    (sizes : option (list nat)) (w : world) :
  call_build_automerging_index ext
    [ ("input_files", Py.VStrList files); ("index_name", Py.VStr name);
      ("chunk_sizes", py_opt_int_list sizes) ] w
  = (Raise (Exn TypeError
       "build_automerging_index() got an unexpected keyword argument 'input_files'"), w).
Proof. reflexivity. Qed.

Lemma sentence_window_call_rejected (ext : externals) (files : list string)
    (name : string) (w : world) :
  call_build_sentence_window_index ext
    [ ("input_files", Py.VStrList files); ("index_name", Py.VStr name) ] w
  = (Raise (Exn TypeError
       "build_sentence_window_index() got an unexpected keyword argument 'input_files'"), w).
Proof. reflexivity. Qed.

(** C2. For a [/build-index] request with [index_type] "automerging" or
    "sentence_window", the handler calls the builder with the keywords
    [input_files] and [index_name], which are not among the builder's
    declared parameters: the call raises a [TypeError] before the body of
    the builder runs.  Every such request is answered with HTTP 500 and
    leaves the collections and the persisted indexes as they were; when the
    input files resolve to a non-empty list, the detail is the message of
    that [TypeError]. *)
Theorem build_index_api_directory_builders_fail (ext : externals) (fs : Fs.fsys)
    (request : BuildIndexRequest) (w : world) :
  index_type request = "automerging" \/ index_type request = "sentence_window" ->
  (forall files,
   Py.bind_keywords "build_automerging_index" sig_build_automerging_index
    [ ("input_files", Py.VStrList files); ("index_name", Py.VStr (index_name request));
      ("chunk_sizes", py_opt_int_list (chunk_sizes request)) ]
  = Raise (Exn TypeError
      "build_automerging_index() got an unexpected keyword argument 'input_files'")) /\
  (forall files,
   Py.bind_keywords "build_sentence_window_index" sig_build_sentence_window_index
    [ ("input_files", Py.VStrList files); ("index_name", Py.VStr (index_name request)) ]
  = Raise (Exn TypeError
      "build_sentence_window_index() got an unexpected keyword argument 'input_files'")) /\
  (exists detail, build_index_api ext fs request w = (HTTPException 500 detail, w)) /\
  (forall files, resolve_input_files fs request = Ok files -> files <> [] ->
     build_index_api ext fs request w
     = (HTTPException 500 (directory_builder_error (index_type request)), w)).
Proof.
  intros Hty.
  split; [ reflexivity | ]. split; [ reflexivity | ].
  unfold build_index_api, build_index_api_try, bind, call, directory_builder_error.
  split.
  - destruct (resolve_input_files fs request) as [ [ | f files ] | e ]; simpl;
      [ eauto | | eauto ].
    unfold build_index_dispatch.
    destruct Hty as [-> | ->]; simpl; eauto.
  - intros files -> Hne.
    destruct files as [ | f files ]; [ congruence | ].
    unfold build_index_dispatch.
    destruct Hty as [-> | ->]; reflexivity.
Qed.

Lemma build_index_api_directory_builders_fail_witness :
  build_index_api sample_ext sample_fs
    (sample_request (PathStr "/data") "automerging") empty_world
  = (HTTPException 500
       "build_automerging_index() got an unexpected keyword argument 'input_files'",
     empty_world).
Proof.
  destruct (build_index_api_directory_builders_fail sample_ext sample_fs
              (sample_request (PathStr "/data") "automerging") empty_world
              (or_introl eq_refl)) as (_ & _ & _ & H).
  apply (H ["/data/a.txt"; "/data/b.md"]).
  - reflexivity.
  - discriminate.
Defined.

(** C3. A [/build-index] request whose input file set resolves to the empty
    list fails in the handler with [ValueError("No valid input files
    found")], reported as HTTP 500 with that message, and nothing outside
    the process is changed: no collection is created, deleted or written
    to. *)
Theorem build_index_api_empty_input (ext : externals) (fs : Fs.fsys)
    (request : BuildIndexRequest) (w : world) :
  resolve_input_files fs request = Ok [] ->
  build_index_api_try ext fs request w
  = (Raise (Exn ValueError "No valid input files found"), w) /\
  build_index_api ext fs request w
  = (HTTPException 500 "No valid input files found", w).
Proof.
  intros H.
  unfold build_index_api, build_index_api_try, bind, call.
  rewrite H. simpl. split; reflexivity.
Qed.

Lemma build_index_api_empty_input_witness :
  resolve_input_files sample_fs (sample_request (PathStr "/empty") "basic") = Ok [] /\
  build_index_api sample_ext sample_fs (sample_request (PathStr "/empty") "basic")
    empty_world
  = (HTTPException 500 "No valid input files found", empty_world).
Proof.
  split.
  - reflexivity.
  - apply (build_index_api_empty_input sample_ext sample_fs
             (sample_request (PathStr "/empty") "basic") empty_world).
    reflexivity.
Defined.

Lemma append_empty_r (s : string) : s +:+ "" = s.
Proof.
  induction s as [ | c s IH ]; [ reflexivity | ].
  change (String c (s +:+ "") = String c s). rewrite IH. reflexivity.
Qed.

Lemma prefix_append (s t : string) : String.prefix s (s +:+ t) = true.
Proof.
  induction s as [ | c s IH ]; simpl.
  - destruct t; reflexivity.
  - destruct (ascii_dec c c) as [ _ | Hne ]; [ exact IH | congruence ].
Qed.

Lemma containsb_here (hay needle : string) :
  String.prefix needle hay = true -> containsb hay needle = true.
Proof.
  intros H. destruct hay; cbn [containsb]; rewrite H; reflexivity.
Qed.

Lemma contains_containsb (hay needle : string) :
  contains hay needle -> containsb hay needle = true.
Proof.
  intros (before & after & ->).
  induction before as [ | c before IH ].
  - apply containsb_here.
    change (String.prefix needle (needle +:+ after) = true).
    apply prefix_append.
  - change (containsb (String c (before +:+ needle +:+ after)) needle = true).
    cbn [containsb]. rewrite IH. apply orb_true_r.
Qed.

(** C4, as the code has it.  A [/build-index] request whose [index_type] is
    none of "basic", "automerging", "sentence_window" is answered with HTTP
    500 and changes nothing.  When its input files resolve to a non-empty
    list the detail is ["Invalid index type: " + index_type], which contains
    the invalid type; the input files are checked first, so with an empty or
    unresolvable file set the detail is that of the earlier error. *)
Theorem build_index_api_invalid_type (ext : externals) (fs : Fs.fsys)
    (request : BuildIndexRequest) (w : world) :
  known_index_type (index_type request) = false ->
  (exists detail, build_index_api ext fs request w = (HTTPException 500 detail, w)) /\
  (forall files, resolve_input_files fs request = Ok files -> files <> [] ->
     build_index_api ext fs request w
     = (HTTPException 500 ("Invalid index type: " +:+ index_type request), w) /\
     contains ("Invalid index type: " +:+ index_type request) (index_type request)) /\
  (resolve_input_files fs request = Ok [] ->
     build_index_api ext fs request w
     = (HTTPException 500 "No valid input files found", w)) /\
  (forall e, resolve_input_files fs request = Raise e ->
     build_index_api ext fs request w = (HTTPException 500 (str_of_exn e), w)).
Proof.
  unfold known_index_type. intros H.
  apply orb_false_iff in H as [H H3]. apply orb_false_iff in H as [H1 H2].
  unfold build_index_api, build_index_api_try, bind, call.
  split; [ | split; [ | split ] ];
    [ | | intros ->; reflexivity | intros e ->; reflexivity ].
  - destruct (resolve_input_files fs request) as [ [ | f files ] | e ]; simpl;
      [ eauto | | eauto ].
    unfold build_index_dispatch. rewrite H1, H2, H3. simpl. eauto.
  - intros files -> Hne.
    destruct files as [ | f files ]; [ congruence | ].
    unfold build_index_dispatch. rewrite H1, H2, H3. simpl.
    split; [ reflexivity | ].
    exists "Invalid index type: ", "".
    rewrite append_empty_r. reflexivity.
Qed.

Lemma build_index_api_invalid_type_witness :
  build_index_api sample_ext sample_fs
    (sample_request (PathList ["/data/a.txt"]) "invalid") empty_world
  = (HTTPException 500 "Invalid index type: invalid", empty_world).
Proof.
  destruct (build_index_api_invalid_type sample_ext sample_fs
              (sample_request (PathList ["/data/a.txt"]) "invalid") empty_world
              eq_refl) as (_ & H & _).
  destruct (H ["/data/a.txt"] eq_refl) as [Heq _].
  - discriminate.
  - exact Heq.
Defined.

(** C4 fails when the input file set is empty: the detail is that of the
    earlier check and does not name the type. *)
Lemma invalid_type_empty_input_counterexample :
  known_index_type "invalid" = false /\
  build_index_api sample_ext sample_fs (sample_request (PathList []) "invalid")
    empty_world
  = (HTTPException 500 "No valid input files found", empty_world) /\
  ~ contains "No valid input files found" "invalid".
Proof.
  split; [ reflexivity | ]. split; [ reflexivity | ].
  intros H. apply contains_containsb in H. discriminate H.
Qed.

(** C8. The input files of a [/build-index] request: a list is taken as it
    is; a directory string gives the paths of exactly the entries of that
    directory that are regular files and match the extension filter of the
    request (every regular file when no extension is given). *)
Theorem resolve_input_files_spec (fs : Fs.fsys) (request : BuildIndexRequest) :
  (forall files, input_path request = PathList files ->
     resolve_input_files fs request = Ok files) /\
  (forall directory entries,
     input_path request = PathStr directory ->
     Fs.resolve fs (Fs.parse directory) = Some (Fs.Directory entries) ->
     resolve_input_files fs request
     = Ok (map (fun e => Fs.str (Fs.child (Fs.parse directory) (fst e)))
             (List.filter
                (fun e => Fs.node_is_file (snd e)
                          && matches_extension (file_extension request)
                               (Fs.str (Fs.child (Fs.parse directory) (fst e))))
                entries))).
Proof.
  unfold resolve_input_files. split.
  - intros files ->. reflexivity.
  - intros directory entries -> Hres.
    unfold utils_get_all_files_from_directory.
    rewrite exists_and_is_dir.
    unfold Fs.is_dir, Fs.glob_star. rewrite Hres. simpl. f_equal.
    clear Hres.
    induction entries as [ | [n x] es IH ]; simpl; [ reflexivity | ].
    destruct (Fs.node_is_file x
              && matches_extension (file_extension request)
                   (Fs.str (Fs.child (Fs.parse directory) n))); simpl;
      rewrite IH; reflexivity.
Qed.

Lemma resolve_input_files_spec_witness :
  resolve_input_files sample_fs sample_txt_request = Ok ["/data/a.txt"] /\
  resolve_input_files sample_fs (sample_request (PathList ["x"; "y"]) "basic")
  = Ok ["x"; "y"].
Proof.
  split.
  - exact (proj2 (resolve_input_files_spec sample_fs sample_txt_request)
             "/data" _ eq_refl eq_refl).
  - exact (proj1 (resolve_input_files_spec sample_fs
                    (sample_request (PathList ["x"; "y"]) "basic")) _ eq_refl).
Defined.

(** ** The streaming handlers *)

Lemma append_assoc (a b c : string) : (a +:+ b) +:+ c = a +:+ (b +:+ c).
Proof.
  induction a as [ | x a IH ]; [ reflexivity | ].
  change (String x ((a +:+ b) +:+ c) = String x (a +:+ (b +:+ c))).
  rewrite IH. reflexivity.
Qed.

Lemma drain_step (fuel : nat) next st tr :
  drain (S fuel) next st tr = continue fuel next (next st tr).
Proof.
  simpl. destruct (next st tr) as [[[f | | e] st'] tr']; reflexivity.
Qed.

Section Loop.

Variable sv : services.
Variable file : string.
Variable next : gen_state -> trace -> gen_out * gen_state * trace.

(** Both generators resume the same way. *)
Hypothesis next_resume : forall render full chunk rest tr,
  next (Suspended render full chunk rest) tr
  = stream_loop sv file render (full +:+ chunk) rest tr.

Lemma continue_loop (render : string -> string) (fl : option exn) :
  forall (cs : list string) (full : string) (tr : trace) (fuel : nat),
    let r := continue fuel next
               (stream_loop sv file render full (LlmStream cs fl) tr) in
    (List.length cs <= fuel ->
     r = loop_end sv file render full (LlmStream cs fl) tr) /\
    (fst r = OutOfFuel \/ r = loop_end sv file render full (LlmStream cs fl) tr).
Proof.
  induction cs as [ | c more IH ]; intros full tr fuel; cbn zeta.
  - assert (continue fuel next (stream_loop sv file render full (LlmStream [] fl) tr)
            = loop_end sv file render full (LlmStream [] fl) tr) as ->.
    { unfold stream_loop, loop_end, concat_str. simpl.
      destruct fl; simpl; [ rewrite app_nil_r; reflexivity | ].
      destruct (open_fault sv file); simpl; rewrite ?app_nil_r, ?append_empty_r;
        reflexivity. }
    split; [ reflexivity | right; reflexivity ].
  - assert (loop_end sv file render full (LlmStream (c :: more) fl) tr
            = loop_end sv file render (full +:+ c) (LlmStream more fl) (tr ++ [Sent c]))
      as ->.
    { unfold loop_end, concat_str. simpl.
      rewrite <- !app_assoc. simpl. rewrite append_assoc. reflexivity. }
    unfold stream_loop at 1 3. simpl.
    destruct fuel as [ | fuel ].
    + simpl. split; [ lia | left; reflexivity ].
    + rewrite drain_step, next_resume.
      destruct (IH (full +:+ c) (tr ++ [Sent c]) fuel) as [IH1 IH2].
      split; [ intros; apply IH1; lia | exact IH2 ].
Qed.

End Loop.

Lemma fragments_sent_app (a b : trace) :
  fragments_sent (a ++ b) = fragments_sent a ++ fragments_sent b.
Proof. unfold fragments_sent. apply flat_map_app. Qed.

Lemma files_written_app (a b : trace) :
  files_written (a ++ b) = files_written a ++ files_written b.
Proof. unfold files_written. apply flat_map_app. Qed.

Lemma fragments_sent_map (cs : list string) : fragments_sent (map Sent cs) = cs.
Proof. induction cs as [ | c cs IH ]; simpl; [ | rewrite IH ]; reflexivity. Qed.

Lemma files_written_map (cs : list string) : files_written (map Sent cs) = [].
Proof. induction cs as [ | c cs IH ]; simpl; [ | rewrite IH ]; reflexivity. Qed.

Lemma loop_end_completed (sv : services) (file : string) (render : string -> string)
    (response : llm_stream) (line : string) (tr : trace) :
  loop_end sv file render "" response [Printed line] = (Completed, tr)
  \/ loop_end sv file render "" response [] = (Completed, tr) ->
  failure response = None /\
  open_fault sv file = None /\
  fragments_sent tr = chunks response /\
  files_written tr = [(file, render (concat_str (chunks response)))] /\
  transcript_after_stream tr file render.
Proof.
  unfold loop_end.
  destruct (failure response); [ intros [H | H]; discriminate | ].
  destruct (open_fault sv file); [ intros [H | H]; discriminate | ].
  change ("" +:+ concat_str (chunks response)) with (concat_str (chunks response)).
  assert (forall pre : trace,
            fragments_sent pre = [] -> files_written pre = [] ->
            tr = pre ++ map Sent (chunks response)
                     ++ [Wrote file (render (concat_str (chunks response)))] ->
            fragments_sent tr = chunks response /\
            files_written tr = [(file, render (concat_str (chunks response)))] /\
            transcript_after_stream tr file render) as Hgen.
  { intros pre Hp1 Hp2 ->.
    assert (fragments_sent
              (pre ++ map Sent (chunks response)
                   ++ [Wrote file (render (concat_str (chunks response)))])
            = chunks response) as Hsent.
    { rewrite !fragments_sent_app, Hp1, fragments_sent_map. simpl.
      apply app_nil_r. }
    split; [ exact Hsent | ].
    split.
    - rewrite !files_written_app, Hp2, files_written_map. reflexivity.
    - exists (pre ++ map Sent (chunks response)).
      rewrite Hsent.
      split; [ rewrite <- app_assoc; reflexivity | ].
      split.
      + rewrite files_written_app, Hp2, files_written_map. reflexivity.
      + rewrite fragments_sent_app, Hp1, fragments_sent_map. reflexivity. }
  intros [H | H]; injection H as <-;
    (split; [ reflexivity | split; [ reflexivity | ] ]);
    [ apply (Hgen [Printed line]) | apply (Hgen []) ]; reflexivity.
Qed.

Lemma query_next_resume sv request file_name file render full chunk rest tr :
  query_generate_next sv request file_name file (Suspended render full chunk rest) tr
  = stream_loop sv file render (full +:+ chunk) rest tr.
Proof. reflexivity. Qed.

Lemma chat_next_resume sv request file_name file render full chunk rest tr :
  chat_generate_next sv request file_name file (Suspended render full chunk rest) tr
  = stream_loop sv file render (full +:+ chunk) rest tr.
Proof. reflexivity. Qed.

Lemma llm_stream_eta (s : llm_stream) : s = LlmStream (chunks s) (failure s).
Proof. destruct s; reflexivity. Qed.

(** The trace of a served [/chat] request whose file name could be made. *)
Lemma serve_chat (sv : services) (request : ChatRequest) (fuel : nat)
    (file_name : string) :
  make_file_name sv "Chat" (c_question request) = Ok file_name ->
  let file := os_path_join (c_chat_record_dir request) (file_name +:+ ".md") in
  let response := model_stream sv (c_question request) in
  let ending := loop_end sv file (chat_transcript file_name (c_question request))
                  "" response [] in
  exists how tr,
    serve (S fuel) (chat_with_llm_api sv request) = Streamed how tr /\
    (List.length (chunks response) <= fuel -> (how, tr) = ending) /\
    (how = OutOfFuel \/ (how, tr) = ending).
Proof.
  intros Hname. cbn zeta.
  unfold chat_with_llm_api. rewrite Hname.
  unfold serve, send_body. cbn [gen_next gen_at].
  rewrite drain_step.
  cbn [chat_generate_next].
  rewrite (llm_stream_eta (model_stream sv (c_question request))).
  cbn [chunks failure].
  match goal with
  | |- context [continue fuel ?next (stream_loop sv ?file ?render "" (LlmStream ?cs ?fl) [])] =>
      destruct (continue_loop sv file next
                  (chat_next_resume sv request file_name file)
                  render fl cs "" [] fuel) as [H1 H2];
      destruct (continue fuel next (stream_loop sv file render "" (LlmStream cs fl) []))
        as [how tr] eqn:E
  end.
  exists how, tr. split; [ reflexivity | ].
  split; [ exact H1 | exact H2 ].
Qed.

(** The trace of a served [/query] request whose file name could be made
    and whose retrieval returned. *)
Lemma serve_query (sv : services) (request : QueryRequest) (fuel : nat)
    (file_name : string) (source_nodes : list source_node) (print_data : string) :
  make_file_name sv "RAG" (q_question request) = Ok file_name ->
  basic_query_from_documents sv (q_question request) (q_index_names request)
    (q_similarity_top_k request) = Ok source_nodes ->
  print_data_sources sv source_nodes = Ok print_data ->
  let file := os_path_join (q_chat_record_dir request) (file_name +:+ ".md") in
  let response :=
    model_stream sv (query_prompt (str_join nl (map sn_text source_nodes))
                       (q_question request)) in
  let ending :=
    loop_end sv file (query_transcript file_name (q_question request) print_data)
      "" response
      [Printed ("Number of source nodes: " +:+ pretty (List.length source_nodes))] in
  exists how tr,
    serve (S fuel) (query_from_documents_api sv request) = Streamed how tr /\
    (List.length (chunks response) <= fuel -> (how, tr) = ending) /\
    (how = OutOfFuel \/ (how, tr) = ending).
Proof.
  intros Hname Hquery Hprint. cbn zeta.
  unfold query_from_documents_api. rewrite Hname.
  unfold serve, send_body. cbn [gen_next gen_at].
  rewrite drain_step.
  cbn [query_generate_next]. rewrite Hquery, Hprint. cbn zeta.
  rewrite (llm_stream_eta
             (model_stream sv (query_prompt (str_join nl (map sn_text source_nodes))
                                 (q_question request)))).
  cbn [chunks failure].
  match goal with
  | |- context [continue fuel ?next (stream_loop sv ?file ?render "" (LlmStream ?cs ?fl) ?t)] =>
      destruct (continue_loop sv file next
                  (query_next_resume sv request file_name file)
                  render fl cs "" t fuel) as [H1 H2];
      destruct (continue fuel next (stream_loop sv file render "" (LlmStream cs fl) t))
        as [how tr] eqn:E
  end.
  exists how, tr. split; [ reflexivity | ].
  split; [ exact H1 | exact H2 ].
Qed.

Lemma serve_query_retrieval_failure (sv : services) (request : QueryRequest)
    (fuel : nat) (file_name : string) (e : exn) :
  make_file_name sv "RAG" (q_question request) = Ok file_name ->
  basic_query_from_documents sv (q_question request) (q_index_names request)
    (q_similarity_top_k request) = Raise e ->
  query_from_documents_api sv request
  = StreamingResponse
      (Generator (query_generate_next sv request file_name
                    (os_path_join (q_chat_record_dir request) (file_name +:+ ".md")))
                 Created) /\
  serve (S fuel) (query_from_documents_api sv request) = Streamed (Aborted e) [].
Proof.
  intros Hname Hquery.
  unfold query_from_documents_api. rewrite Hname.
  split; [ reflexivity | ].
  unfold serve, send_body. cbn [gen_next gen_at].
  rewrite drain_step. cbn [query_generate_next]. rewrite Hquery. reflexivity.
Qed.

Lemma serve_query_print_failure (sv : services) (request : QueryRequest)
    (fuel : nat) (file_name : string) (source_nodes : list source_node) (e : exn) :
  make_file_name sv "RAG" (q_question request) = Ok file_name ->
  basic_query_from_documents sv (q_question request) (q_index_names request)
    (q_similarity_top_k request) = Ok source_nodes ->
  print_data_sources sv source_nodes = Raise e ->
  serve (S fuel) (query_from_documents_api sv request) = Streamed (Aborted e) [].
Proof.
  intros Hname Hquery Hprint.
  unfold query_from_documents_api. rewrite Hname.
  unfold serve, send_body. cbn [gen_next gen_at].
  rewrite drain_step. cbn [query_generate_next]. rewrite Hquery, Hprint. reflexivity.
Qed.

Lemma serve_no_fuel (r : stream_response) (tr : trace) :
  serve 0 r <> Streamed Completed tr.
Proof. destruct r; simpl; discriminate. Qed.

(** A [/query] request that was streamed to its end. *)
Lemma query_completed (sv : services) (fuel : nat) (request : QueryRequest)
    (tr : trace) :
  serve fuel (query_from_documents_api sv request) = Streamed Completed tr ->
  exists file_name source_nodes print_data,
    make_file_name sv "RAG" (q_question request) = Ok file_name /\
    basic_query_from_documents sv (q_question request) (q_index_names request)
      (q_similarity_top_k request) = Ok source_nodes /\
    print_data_sources sv source_nodes = Ok print_data /\
    let file := os_path_join (q_chat_record_dir request) (file_name +:+ ".md") in
    let render := query_transcript file_name (q_question request) print_data in
    let response := model_stream sv
                      (query_prompt (str_join nl (map sn_text source_nodes))
                         (q_question request)) in
    fragments_sent tr = chunks response /\
    files_written tr = [(file, render (concat_str (chunks response)))] /\
    transcript_after_stream tr file render.
Proof.
  intros H.
  destruct fuel as [ | fuel ]; [ exfalso; exact (serve_no_fuel _ _ H) | ].
  destruct (make_file_name sv "RAG" (q_question request)) as [file_name | e] eqn:Hname.
  2:{ unfold query_from_documents_api in H. rewrite Hname in H. discriminate H. }
  destruct (basic_query_from_documents sv (q_question request)
              (q_index_names request) (q_similarity_top_k request))
    as [source_nodes | e] eqn:Hquery.
  2:{ destruct (serve_query_retrieval_failure sv request fuel file_name e Hname Hquery)
        as [_ H']. rewrite H' in H. discriminate H. }
  destruct (print_data_sources sv source_nodes) as [print_data | e] eqn:Hprint.
  2:{ rewrite (serve_query_print_failure sv request fuel file_name source_nodes e
                 Hname Hquery Hprint) in H. discriminate H. }
  destruct (serve_query sv request fuel file_name source_nodes print_data
              Hname Hquery Hprint) as (how & tr' & Hserve & _ & Hend).
  rewrite Hserve in H. injection H as -> ->.
  destruct Hend as [Hend | Hend]; [ discriminate Hend | ].
  symmetry in Hend.
  destruct (loop_end_completed sv _ _ _ _ tr (or_introl Hend))
    as (_ & _ & Hsent & Hfiles & Hlast).
  exists file_name, source_nodes, print_data. cbn zeta. auto 6.
Qed.

(** A [/chat] request that was streamed to its end. *)
Lemma chat_completed (sv : services) (fuel : nat) (request : ChatRequest)
    (tr : trace) :
  serve fuel (chat_with_llm_api sv request) = Streamed Completed tr ->
  exists file_name,
    make_file_name sv "Chat" (c_question request) = Ok file_name /\
    let file := os_path_join (c_chat_record_dir request) (file_name +:+ ".md") in
    let render := chat_transcript file_name (c_question request) in
    let response := model_stream sv (c_question request) in
    fragments_sent tr = chunks response /\
    files_written tr = [(file, render (concat_str (chunks response)))] /\
    transcript_after_stream tr file render.
Proof.
  intros H.
  destruct fuel as [ | fuel ]; [ exfalso; exact (serve_no_fuel _ _ H) | ].
  destruct (make_file_name sv "Chat" (c_question request)) as [file_name | e] eqn:Hname.
  2:{ unfold chat_with_llm_api in H. rewrite Hname in H. discriminate H. }
  destruct (serve_chat sv request fuel file_name Hname)
    as (how & tr' & Hserve & _ & Hend).
  rewrite Hserve in H. injection H as -> ->.
  destruct Hend as [Hend | Hend]; [ discriminate Hend | ].
  symmetry in Hend.
  destruct (loop_end_completed sv _ _ _ "" tr (or_intror Hend))
    as (_ & _ & Hsent & Hfiles & Hlast).
  exists file_name. cbn zeta. auto.
Qed.

(** C6. When a [/query] or [/chat] stream completes, the transcript file is
    written exactly once, as the last thing that happens and after every
    fragment has been sent, and the answer in it is the concatenation, in
    order, of exactly the fragments sent to the caller, which are the
    fragments the model gave.  Nothing is held back: the first [next] of the
    generator yields the first fragment with the rest of the model's stream
    still to come. *)
Theorem streamed_transcript (sv : services) (fuel : nat) :
  (forall request tr,
     serve fuel (query_from_documents_api sv request) = Streamed Completed tr ->
     exists file_name source_nodes print_data,
       make_file_name sv "RAG" (q_question request) = Ok file_name /\
       basic_query_from_documents sv (q_question request) (q_index_names request)
         (q_similarity_top_k request) = Ok source_nodes /\
       print_data_sources sv source_nodes = Ok print_data /\
       fragments_sent tr
       = chunks (model_stream sv
                   (query_prompt (str_join nl (map sn_text source_nodes))
                      (q_question request))) /\
       files_written tr
       = [(os_path_join (q_chat_record_dir request) (file_name +:+ ".md"),
           query_transcript file_name (q_question request) print_data
             (concat_str (fragments_sent tr)))] /\
       transcript_after_stream tr
         (os_path_join (q_chat_record_dir request) (file_name +:+ ".md"))
         (query_transcript file_name (q_question request) print_data)) /\
  (forall request tr,
     serve fuel (chat_with_llm_api sv request) = Streamed Completed tr ->
     exists file_name,
       make_file_name sv "Chat" (c_question request) = Ok file_name /\
       fragments_sent tr = chunks (model_stream sv (c_question request)) /\
       files_written tr
       = [(os_path_join (c_chat_record_dir request) (file_name +:+ ".md"),
           chat_transcript file_name (c_question request)
             (concat_str (fragments_sent tr)))] /\
       transcript_after_stream tr
         (os_path_join (c_chat_record_dir request) (file_name +:+ ".md"))
         (chat_transcript file_name (c_question request))) /\
  (forall request file_name file chunk more fl tr,
     model_stream sv (c_question request) = LlmStream (chunk :: more) fl ->
     chat_generate_next sv request file_name file Created tr
     = (Yielded chunk,
        Suspended (chat_transcript file_name (c_question request)) "" chunk
          (LlmStream more fl),
        tr)) /\
  (forall request file_name file source_nodes print_data chunk more fl tr,
     basic_query_from_documents sv (q_question request) (q_index_names request)
       (q_similarity_top_k request) = Ok source_nodes ->
     print_data_sources sv source_nodes = Ok print_data ->
     model_stream sv (query_prompt (str_join nl (map sn_text source_nodes))
                        (q_question request))
     = LlmStream (chunk :: more) fl ->
     exists tr',
       query_generate_next sv request file_name file Created tr
       = (Yielded chunk,
          Suspended (query_transcript file_name (q_question request) print_data)
            "" chunk (LlmStream more fl),
          tr') /\
       files_written tr' = files_written tr /\
       fragments_sent tr' = fragments_sent tr).
Proof.
  split; [ | split; [ | split ] ];
    [ | | | intros request file_name file source_nodes print_data chunk more fl tr
              Hquery Hprint Hs;
            cbn [query_generate_next]; rewrite Hquery, Hprint; cbn zeta;
            rewrite Hs; eexists; split; [ reflexivity | ];
            rewrite files_written_app, fragments_sent_app; simpl;
            rewrite !app_nil_r; split; reflexivity ].
  - intros request tr H.
    destruct (query_completed sv fuel request tr H)
      as (file_name & source_nodes & print_data & Hname & Hquery & Hprint
          & Hsent & Hfiles & Hlast).
    exists file_name, source_nodes, print_data.
    rewrite Hfiles, Hsent. auto 6.
  - intros request tr H.
    destruct (chat_completed sv fuel request tr H)
      as (file_name & Hname & Hsent & Hfiles & Hlast).
    exists file_name. rewrite Hfiles, Hsent. auto.
  - intros request file_name file chunk more fl tr Hs.
    cbn [chat_generate_next]. rewrite Hs. reflexivity.
Qed.

Lemma streamed_transcript_witness :
  serve 5 (query_from_documents_api sample_services sample_query)
  = Streamed Completed sample_query_trace /\
  fragments_sent sample_query_trace = ["Par"; "is"] /\
  transcript_after_stream sample_query_trace "/records/20240101-RAG-capital.md"
    (query_transcript "20240101-RAG-capital" "What is the capital of France?" "sources").
Proof.
  assert (serve 5 (query_from_documents_api sample_services sample_query)
          = Streamed Completed sample_query_trace) as H by (vm_compute; reflexivity).
  split; [ exact H | ].
  destruct (proj1 (streamed_transcript sample_services 5) _ _ H)
    as (file_name & source_nodes & print_data & Hname & Hquery & Hprint
        & Hsent & _ & Hlast).
  vm_compute in Hname. injection Hname as <-.
  vm_compute in Hquery. injection Hquery as <-.
  vm_compute in Hprint. injection Hprint as <-.
  split; [ exact Hsent | exact Hlast ].
Defined.

Lemma make_file_name_ok (sv : services) (tag question file_name : string) :
  make_file_name sv tag question = Ok file_name ->
  exists ts name,
    get_timestamp sv = Ok ts /\
    get_chat_file_name sv question = Ok name /\
    file_name = ts +:+ tag +:+ "-" +:+ name.
Proof.
  unfold make_file_name, result_bind.
  destruct (get_timestamp sv) as [ts | e]; [ | discriminate ].
  destruct (get_chat_file_name sv question) as [name | e]; [ | discriminate ].
  intros H. injection H as <-. eauto.
Qed.

Lemma starts_with_slash_append (a b : string) :
  Fs.starts_with_slash a = false ->
  Fs.starts_with_slash b = false ->
  Fs.starts_with_slash (a +:+ b) = false.
Proof. destruct a; intros Ha Hb; [ exact Hb | exact Ha ]. Qed.

Lemma os_path_join_plain (a b : string) :
  a <> "" -> ends_with a "/" = false -> Fs.starts_with_slash b = false ->
  os_path_join a b = a +:+ "/" +:+ b.
Proof.
  intros Ha Hend Hb. unfold os_path_join.
  rewrite Hb, Hend. apply String.eqb_neq in Ha. rewrite Ha. reflexivity.
Qed.

Lemma os_path_join_slash (a b : string) :
  ends_with a "/" = true -> Fs.starts_with_slash b = false ->
  os_path_join a b = a +:+ b.
Proof.
  intros Hend Hb. unfold os_path_join.
  rewrite Hb, Hend, orb_true_r. reflexivity.
Qed.

(** C9. The transcript of a completed request is written to the path made
    by [os.path.join] of [chat_record_dir] and the file name
    [<timestamp>RAG-<sanitized question>.md] for [/query],
    [<timestamp>Chat-<sanitized question>.md] for [/chat].  For a directory
    without a trailing separator that path is the directory, a separator and
    the file name; for a directory that ends in a separator (as the default
    does) it is the directory followed by the file name. *)
Theorem transcript_file_path (sv : services) (fuel : nat) :
  (forall request tr file text,
     serve fuel (query_from_documents_api sv request) = Streamed Completed tr ->
     In (file, text) (files_written tr) ->
     exists ts name,
       get_timestamp sv = Ok ts /\
       get_chat_file_name sv (q_question request) = Ok name /\
       file = os_path_join (q_chat_record_dir request)
                ((ts +:+ "RAG-" +:+ name) +:+ ".md")) /\
  (forall request tr file text,
     serve fuel (chat_with_llm_api sv request) = Streamed Completed tr ->
     In (file, text) (files_written tr) ->
     exists ts name,
       get_timestamp sv = Ok ts /\
       get_chat_file_name sv (c_question request) = Ok name /\
       file = os_path_join (c_chat_record_dir request)
                ((ts +:+ "Chat-" +:+ name) +:+ ".md")) /\
  (forall dir ts tag name,
     tag = "RAG-" \/ tag = "Chat-" ->
     Fs.starts_with_slash ts = false ->
     (dir <> "" -> ends_with dir "/" = false ->
      os_path_join dir ((ts +:+ tag +:+ name) +:+ ".md")
      = dir +:+ "/" +:+ (ts +:+ tag +:+ name) +:+ ".md") /\
     (ends_with dir "/" = true ->
      os_path_join dir ((ts +:+ tag +:+ name) +:+ ".md")
      = dir +:+ (ts +:+ tag +:+ name) +:+ ".md")).
Proof.
  split; [ | split ].
  - intros request tr file text H Hin.
    destruct (query_completed sv fuel request tr H)
      as (file_name & source_nodes & print_data & Hname & _ & _ & _ & Hfiles & _).
    rewrite Hfiles in Hin. destruct Hin as [Hin | []]. injection Hin as <- _.
    destruct (make_file_name_ok _ _ _ _ Hname) as (ts & name & Hts & Hn & ->).
    exists ts, name. auto.
  - intros request tr file text H Hin.
    destruct (chat_completed sv fuel request tr H)
      as (file_name & Hname & _ & Hfiles & _).
    rewrite Hfiles in Hin. destruct Hin as [Hin | []]. injection Hin as <- _.
    destruct (make_file_name_ok _ _ _ _ Hname) as (ts & name & Hts & Hn & ->).
    exists ts, name. auto.
  - intros dir ts tag name Htag Hts.
    assert (Fs.starts_with_slash ((ts +:+ tag +:+ name) +:+ ".md") = false) as Hb.
    { apply starts_with_slash_append; [ | reflexivity ].
      apply starts_with_slash_append; [ exact Hts | ].
      destruct Htag as [-> | ->]; reflexivity. }
    split.
    + intros Hne Hend. apply os_path_join_plain; assumption.
    + intros Hend. apply os_path_join_slash; assumption.
Qed.

Lemma transcript_file_path_witness :
  files_written sample_chat_trace
  = [("/records/20240101-Chat-capital.md",
      chat_transcript "20240101-Chat-capital" "Hello" "Paris")] /\
  exists ts name,
    get_timestamp sample_services = Ok ts /\
    get_chat_file_name sample_services "Hello" = Ok name /\
    "/records/20240101-Chat-capital.md"
    = os_path_join "/records/" ((ts +:+ "Chat-" +:+ name) +:+ ".md").
Proof.
  split; [ reflexivity | ].
  apply (proj1 (proj2 (transcript_file_path sample_services 5))
           sample_chat sample_chat_trace "/records/20240101-Chat-capital.md"
           (chat_transcript "20240101-Chat-capital" "Hello" "Paris")).
  - vm_compute. reflexivity.
  - left. reflexivity.
Defined.

(** C5, as the code has it.  A failure while the handler prepares the
    response (the timestamp or the file name cannot be made) is answered
    with HTTP 500 and the message of the exception.  Once the handler has
    returned the streaming response, a failure of the model's stream is not:
    the fragments given before it have been sent, the stream ends there and
    no transcript is written. *)
Theorem query_failures (sv : services) (request : QueryRequest) :
  (forall e,
     make_file_name sv "RAG" (q_question request) = Raise e ->
     query_from_documents_api sv request = StreamHTTPException 500 (str_of_exn e) /\
     forall fuel,
       serve fuel (query_from_documents_api sv request)
       = ErrorResponse 500 (str_of_exn e)) /\
  (forall file_name source_nodes print_data cs e fuel,
     make_file_name sv "RAG" (q_question request) = Ok file_name ->
     basic_query_from_documents sv (q_question request) (q_index_names request)
       (q_similarity_top_k request) = Ok source_nodes ->
     print_data_sources sv source_nodes = Ok print_data ->
     model_stream sv (query_prompt (str_join nl (map sn_text source_nodes))
                        (q_question request))
     = LlmStream cs (Some e) ->
     List.length cs <= fuel ->
     exists tr,
       serve (S fuel) (query_from_documents_api sv request) = Streamed (Aborted e) tr /\
       fragments_sent tr = cs /\
       files_written tr = []).
Proof.
  split.
  - intros e Hname. unfold query_from_documents_api. rewrite Hname.
    split; [ reflexivity | intros fuel; reflexivity ].
  - intros file_name source_nodes print_data cs e fuel Hname Hquery Hprint Hs Hfuel.
    destruct (serve_query sv request fuel file_name source_nodes print_data
                Hname Hquery Hprint) as (how & tr & Hserve & Hend & _).
    rewrite Hs in Hend. specialize (Hend Hfuel).
    unfold loop_end in Hend. cbn [failure chunks] in Hend.
    injection Hend as -> ->.
    eexists. split; [ exact Hserve | ].
    split.
    + simpl. apply fragments_sent_map.
    + simpl. apply files_written_map.
Qed.

Lemma query_failures_witness :
  exists tr,
    serve 5 (query_from_documents_api breaking_services sample_query)
    = Streamed (Aborted (Exn RuntimeError "connection reset")) tr /\
    fragments_sent tr = ["Par"] /\
    files_written tr = [].
Proof.
  apply (proj2 (query_failures breaking_services sample_query)
           "20240101-RAG-capital"
           [SourceNode "Paris is the capital of France." "docs"] "sources"
           ["Par"] (Exn RuntimeError "connection reset") 4);
    try reflexivity.
  simpl. lia.
Defined.

Lemma query_failure_counterexample :
  serve 5 (query_from_documents_api breaking_services sample_query)
  = Streamed (Aborted (Exn RuntimeError "connection reset"))
      [Printed "Number of source nodes: 1"; Sent "Par"] /\
  serve 5 (query_from_documents_api breaking_services sample_query)
  <> ErrorResponse 500 "connection reset".
Proof.
  split; [ vm_compute; reflexivity | vm_compute; discriminate ].
Qed.

(** * Further properties of the code *)

(** ** [create_document_index]: what a failed build leaves behind *)

Lemma lookup_all_create_other (name other : string) (cs cs' : list (string * list node)) :
  other <> name ->
  Weaviate.create cs name = Ok cs' ->
  Weaviate.lookup_all cs' other = Weaviate.lookup_all cs other.
Proof.
  intros Hne. unfold Weaviate.create.
  destruct (Weaviate.exists_ cs name); [ discriminate | ].
  intros H. injection H as <-.
  rewrite lookup_all_app, (lookup_all_new_other name other Hne). apply app_nil_r.
Qed.

Lemma lookup_all_ensure_other (name other : string) (cs : list (string * list node)) :
  other <> name ->
  Weaviate.lookup_all (Weaviate.ensure cs name) other = Weaviate.lookup_all cs other.
Proof.
  intros Hne. unfold Weaviate.ensure.
  destruct (Weaviate.exists_ cs name); [ reflexivity | ].
  rewrite lookup_all_app, (lookup_all_new_other name other Hne). apply app_nil_r.
Qed.

(** X1. When [connect_to_local] raises, [create_document_index] raises that
    same exception and touches nothing: the collections, the persisted
    indexes and the open connections are as before, no [close] is attempted,
    and the only thing that happens is the line printed by the [except]
    block. *)
Theorem create_document_index_connect_failure (ext : externals)
    (files : list string) (name : string) (cs co : option nat) (w : world) (e : exn) :
  connect_to_local ext = Raise e ->
  create_document_index ext files name cs co w
  = (Raise e, log_event w (EvPrint ("Error occurred: " +:+ str_of_exn e))).
Proof.
  intros H. unfold_create_document_index. simpl. rewrite H. reflexivity.
Qed.

Lemma create_document_index_connect_failure_witness :
  create_document_index offline_ext ["a.txt"] "Docs" (Some 1024) (Some 200)
    world_after_first
  = (Raise (Exn OSError "connection refused"),
     log_event world_after_first (EvPrint "Error occurred: connection refused")).
Proof.
  apply (create_document_index_connect_failure offline_ext ["a.txt"] "Docs"
           (Some 1024) (Some 200) world_after_first
           (Exn OSError "connection refused")).
  reflexivity.
Defined.

(** X2. In every run of [create_document_index], whether it returns or
    raises and wherever it raises, the collections of every other name are
    left as they were, and so are the persisted index directories. *)
Theorem create_document_index_other_collections (ext : externals)
    (files : list string) (name : string) (cs co : option nat) (w : world)
    (other : string) :
  other <> name ->
  let w' := snd (create_document_index ext files name cs co w) in
  Weaviate.lookup_all (collections w') other = Weaviate.lookup_all (collections w) other /\
  persisted w' = persisted w.
Proof.
  intros Hne.
  unfold_create_document_index. simpl.
  repeat case_goal.
  all: split; [ | reflexivity ].
  all: repeat match goal with
         | H : Weaviate.create _ _ = Ok _ |- _ =>
             apply (lookup_all_create_other name other _ _ Hne) in H
         end.
  all: rewrite ?(lookup_all_add_nodes_other name other Hne),
         ?(lookup_all_ensure_other name other _ Hne).
  all: repeat match goal with
         | H : Weaviate.lookup_all _ _ = Weaviate.lookup_all _ _ |- _ => rewrite H; clear H
         end.
  all: rewrite ?(lookup_all_delete_other name other Hne); reflexivity.
Qed.

Lemma create_document_index_other_collections_witness :
  Weaviate.lookup_all
    (collections (snd (create_document_index unreadable_ext ["b.txt"] "Other" None None
                         world_after_first))) "Docs"
  = [[Node "text of a.txt" "a.txt" false]].
Proof.
  refine (eq_trans
            (proj1 (create_document_index_other_collections unreadable_ext ["b.txt"]
                      "Other" None None world_after_first "Docs" _))
            eq_refl).
  discriminate.
Defined.

Lemma create_after_delete (name : string) (cs : list (string * list node)) :
  Weaviate.create (Weaviate.delete cs name) name
  = Ok (Weaviate.delete cs name ++ [(name, [])]).
Proof. unfold Weaviate.create. rewrite exists_delete. reflexivity. Qed.

Lemma create_absent (name : string) (cs : list (string * list node)) :
  Weaviate.exists_ cs name = false ->
  Weaviate.create cs name = Ok (cs ++ [(name, [])]).
Proof. intros H. unfold Weaviate.create. rewrite H. reflexivity. Qed.

(** X3. An exception that leaves [create_document_index] is always the
    exception of one of the calls it makes, passed on unchanged by the bare
    [raise]: the connection, a call on the Weaviate client, the reader, the
    splitter or the index construction.  In particular the function never
    fails because the collection it creates already exists: it has deleted
    it first. *)
Theorem create_document_index_raises_only_what_a_call_raised (ext : externals)
    (files : list string) (name : string) (cs co : option nat) (w : world) (e : exn) :
  fst (create_document_index ext files name cs co w) = Raise e ->
  connect_to_local ext = Raise e \/
  (exists op, weaviate_fault ext op = Some e) \/
  load_data ext files = Raise e \/
  (exists documents, load_data ext files = Ok documents /\
                     sentence_splitter ext cs co documents = Raise e) \/
  (exists k, index_fault ext = Some (k, e)).
Proof.
  unfold_create_document_index. simpl.
  destruct (connect_to_local ext) as [[] | e0] eqn:Hc; simpl.
  2:{ intros H. injection H as <-. left. reflexivity. }
  destruct (weaviate_fault ext OpExists) as [e0 | ] eqn:He; simpl.
  { intros H. injection H as <-. right. left. eauto. }
  destruct (Weaviate.exists_ (collections w) name) eqn:Hex; simpl.
  - destruct (weaviate_fault ext OpDelete) as [e0 | ] eqn:Hd; simpl.
    { intros H. injection H as <-. right. left. eauto. }
    destruct (weaviate_fault ext OpCreate) as [e0 | ] eqn:Hcr; simpl.
    { intros H. injection H as <-. right. left. eauto. }
    rewrite create_after_delete. simpl.
    destruct (load_data ext files) as [docs | e0] eqn:Hl; simpl.
    2:{ intros H. injection H as <-. auto. }
    destruct (sentence_splitter ext cs co docs) as [nodes | e0] eqn:Hs; simpl.
    2:{ intros H. injection H as <-. right. right. right. left. eauto. }
    destruct (weaviate_fault ext OpStore) as [e0 | ] eqn:Hst; simpl.
    { intros H. injection H as <-. right. left. eauto. }
    destruct (index_fault ext) as [[k e0] | ] eqn:Hi; simpl.
    { intros H. injection H as <-. right. right. right. right. eauto. }
    discriminate.
  - destruct (weaviate_fault ext OpCreate) as [e0 | ] eqn:Hcr; simpl.
    { intros H. injection H as <-. right. left. eauto. }
    rewrite (create_absent _ _ Hex). simpl.
    destruct (load_data ext files) as [docs | e0] eqn:Hl; simpl.
    2:{ intros H. injection H as <-. auto. }
    destruct (sentence_splitter ext cs co docs) as [nodes | e0] eqn:Hs; simpl.
    2:{ intros H. injection H as <-. right. right. right. left. eauto. }
    destruct (weaviate_fault ext OpStore) as [e0 | ] eqn:Hst; simpl.
    { intros H. injection H as <-. right. left. eauto. }
    destruct (index_fault ext) as [[k e0] | ] eqn:Hi; simpl.
    { intros H. injection H as <-. right. right. right. right. eauto. }
    discriminate.
Qed.

Lemma create_document_index_raises_only_what_a_call_raised_witness :
  let e := Exn OSError "file not found" in
  connect_to_local unreadable_ext = Raise e \/
  (exists op, weaviate_fault unreadable_ext op = Some e) \/
  load_data unreadable_ext ["a.txt"] = Raise e \/
  (exists documents, load_data unreadable_ext ["a.txt"] = Ok documents /\
                     sentence_splitter unreadable_ext None None documents = Raise e) \/
  (exists k, index_fault unreadable_ext = Some (k, e)).
Proof.
  apply (create_document_index_raises_only_what_a_call_raised unreadable_ext
           ["a.txt"] "Docs" None None empty_world (Exn OSError "file not found")).
  reflexivity.
Defined.

(** X4. There is no rollback.  When the connection and the calls on the
    collections succeed and the reader then raises, [create_document_index]
    raises the reader's exception having already dropped the old collection:
    what is left under that name is one empty collection.  The client is
    closed all the same. *)
Theorem create_document_index_load_failure (ext : externals)
    (files : list string) (name : string) (cs co : option nat) (w : world) (e : exn) :
  connect_to_local ext = Ok tt ->
  weaviate_fault ext OpExists = None ->
  weaviate_fault ext OpDelete = None ->
  weaviate_fault ext OpCreate = None ->
  load_data ext files = Raise e ->
  let r := create_document_index ext files name cs co w in
  fst r = Raise e /\
  Weaviate.lookup_all (collections (snd r)) name = [[]] /\
  open_clients (snd r) = open_clients w.
Proof.
  intros Hc He Hd Hcr Hl.
  unfold_create_document_index. simpl.
  rewrite Hc. simpl. rewrite He. simpl.
  destruct (Weaviate.exists_ (collections w) name) eqn:Hex; simpl.
  - rewrite Hd. simpl. rewrite Hcr. simpl. rewrite create_after_delete. simpl.
    rewrite Hl. simpl.
    split; [ reflexivity | ]. split; [ | reflexivity ].
    rewrite lookup_all_app, lookup_all_new.
    rewrite (lookup_all_absent _ _ (exists_delete name (collections w))).
    reflexivity.
  - rewrite Hcr. simpl. rewrite (create_absent _ _ Hex). simpl.
    rewrite Hl. simpl.
    split; [ reflexivity | ]. split; [ | reflexivity ].
    rewrite lookup_all_app, lookup_all_new, (lookup_all_absent _ _ Hex).
    reflexivity.
Qed.

Lemma create_document_index_load_failure_witness :
  Weaviate.lookup_all (collections world_after_first) "Docs"
  = [[Node "text of a.txt" "a.txt" false]] /\
  let r := create_document_index unreadable_ext ["b.txt"] "Docs" None None
             world_after_first in
  fst r = Raise (Exn OSError "file not found") /\
  Weaviate.lookup_all (collections (snd r)) "Docs" = [[]] /\
  open_clients (snd r) = open_clients world_after_first.
Proof.
  split; [ reflexivity | ].
  apply (create_document_index_load_failure unreadable_ext ["b.txt"] "Docs" None None
           world_after_first (Exn OSError "file not found")); reflexivity.
Defined.

(** X5. Rebuilding is idempotent: when a build that returned is run again
    with the same services and arguments and returns again, every collection
    holds what it held after the first build. *)
Theorem create_document_index_rebuild_same (ext : externals)
    (files : list string) (name : string) (cs co : option nat) (w w1 w2 : world) :
  create_document_index ext files name cs co w = (Ok tt, w1) ->
  create_document_index ext files name cs co w1 = (Ok tt, w2) ->
  forall other,
    Weaviate.lookup_all (collections w2) other
    = Weaviate.lookup_all (collections w1) other.
Proof.
  intros H1 H2 other.
  destruct (create_document_index_one_collection _ _ _ _ _ _ _ H1)
    as (d1 & n1 & Hl1 & Hs1 & Hone1 & _ & _).
  destruct (create_document_index_one_collection _ _ _ _ _ _ _ H2)
    as (d2 & n2 & Hl2 & Hs2 & Hone2 & _ & Hother2).
  destruct (String.eqb_spec other name) as [-> | Hne].
  - rewrite Hone1, Hone2. rewrite Hl1 in Hl2. injection Hl2 as <-.
    rewrite Hs1 in Hs2. injection Hs2 as <-. reflexivity.
  - apply Hother2. exact Hne.
Qed.

Lemma create_document_index_rebuild_same_witness :
  Weaviate.lookup_all
    (collections (snd (create_document_index sample_ext ["b.txt"] "Docs" (Some 1024)
                         (Some 200) world_after_second))) "Docs"
  = Weaviate.lookup_all (collections world_after_second) "Docs".
Proof.
  refine (create_document_index_rebuild_same sample_ext ["b.txt"] "Docs" (Some 1024)
            (Some 200) world_after_first world_after_second _ _ _ "Docs").
  - vm_compute. reflexivity.
  - vm_compute. reflexivity.
Defined.

(** ** [delete_document_collection] *)

Lemma delete_document_collection_ok (ext : externals) (name : string) (w w' : world) :
  delete_document_collection ext name w = (Ok tt, w') ->
  collections w' = Weaviate.delete (collections w) name /\
  open_clients w' = open_clients w /\
  persisted w' = persisted w.
Proof.
  unfold_delete_document_collection. simpl.
  destruct (connect_to_local ext); simpl; [ | discriminate ].
  destruct (weaviate_fault ext OpDelete); simpl; [ discriminate | ].
  intros H. injection H as <-. simpl. auto.
Qed.

(** X6. A call of [delete_document_collection] that returns leaves no
    collection of that name, leaves the collections of other names as they
    were, and leaves as many connections open as it found. *)
Theorem delete_document_collection_removes (ext : externals) (name : string)
    (w w' : world) :
  delete_document_collection ext name w = (Ok tt, w') ->
  Weaviate.count (collections w') name = 0 /\
  (forall other, other <> name ->
     Weaviate.lookup_all (collections w') other
     = Weaviate.lookup_all (collections w) other) /\
  open_clients w' = open_clients w.
Proof.
  intros H.
  destruct (delete_document_collection_ok _ _ _ _ H) as (Hcs & Hopen & _).
  rewrite Hcs. split; [ | split; [ | exact Hopen ] ].
  - unfold Weaviate.count.
    rewrite (lookup_all_absent _ _ (exists_delete name (collections w))).
    reflexivity.
  - intros other Hne. apply (lookup_all_delete_other name other Hne).
Qed.

Lemma delete_document_collection_removes_witness :
  Weaviate.count (collections world_after_first) "Docs" = 1 /\
  Weaviate.count
    (collections (snd (delete_document_collection sample_ext "Docs" world_after_first)))
    "Docs" = 0.
Proof.
  split; [ reflexivity | ].
  refine (proj1 (delete_document_collection_removes sample_ext "Docs"
                   world_after_first _ _)).
  vm_compute. reflexivity.
Defined.

(** X7. [delete_document_collection] has no [finally]: when the deletion
    raises, the exception leaves the function with the connection it opened
    still open, no [close] having been called; the collections are as they
    were. *)
Theorem delete_document_collection_leaks_on_failure (ext : externals)
    (name : string) (w : world) (e : exn) :
  connect_to_local ext = Ok tt ->
  weaviate_fault ext OpDelete = Some e ->
  let r := delete_document_collection ext name w in
  fst r = Raise e /\
  open_clients (snd r) = S (open_clients w) /\
  collections (snd r) = collections w /\
  existsb is_close (events (snd r)) = existsb is_close (events w).
Proof.
  intros Hc Hd.
  unfold_delete_document_collection. simpl.
  rewrite Hc. simpl. rewrite Hd. simpl.
  repeat split. rewrite existsb_app. simpl. apply orb_false_r.
Qed.

Lemma delete_document_collection_leaks_on_failure_witness :
  let r := delete_document_collection undeletable_ext "Docs" world_after_first in
  fst r = Raise (Exn RuntimeError "delete refused") /\
  open_clients (snd r) = S (open_clients world_after_first) /\
  collections (snd r) = collections world_after_first /\
  existsb is_close (events (snd r)) = existsb is_close (events world_after_first).
Proof.
  apply (delete_document_collection_leaks_on_failure undeletable_ext "Docs"
           world_after_first (Exn RuntimeError "delete refused")); reflexivity.
Defined.

Lemma delete_app (name : string) (a b : list (string * list node)) :
  Weaviate.delete (a ++ b) name = Weaviate.delete a name ++ Weaviate.delete b name.
Proof. unfold Weaviate.delete. apply List.filter_app. Qed.

Lemma delete_delete (name : string) (cs : list (string * list node)) :
  Weaviate.delete (Weaviate.delete cs name) name = Weaviate.delete cs name.
Proof. apply delete_absent, exists_delete. Qed.

Lemma delete_add_nodes (name : string) (cs : list (string * list node))
    (ns : list node) :
  Weaviate.delete (Weaviate.add_nodes cs name ns) name = Weaviate.delete cs name.
Proof.
  unfold Weaviate.delete, Weaviate.add_nodes.
  induction cs as [ | c cs IH ]; simpl; [ reflexivity | ].
  destruct (Weaviate.named name c) eqn:E; simpl.
  - unfold Weaviate.named in *. simpl. rewrite E. simpl. exact IH.
  - rewrite E. simpl. rewrite IH. reflexivity.
Qed.

(** X8. Building an index and then deleting it leaves exactly the
    collections that deleting alone would have left: nothing of the build
    remains. *)
Theorem create_then_delete (ext ext' : externals) (files : list string)
    (name : string) (cs co : option nat) (w w1 w2 : world) :
  create_document_index ext files name cs co w = (Ok tt, w1) ->
  delete_document_collection ext' name w1 = (Ok tt, w2) ->
  collections w2 = Weaviate.delete (collections w) name.
Proof.
  intros H1 H2.
  destruct (create_document_index_ok _ _ _ _ _ _ _ H1) as (d & n & _ & _ & Hcs).
  destruct (delete_document_collection_ok _ _ _ _ H2) as (Hcs2 & _).
  rewrite Hcs2, Hcs, delete_add_nodes, delete_app, delete_delete.
  unfold Weaviate.delete at 2. simpl.
  unfold Weaviate.named. simpl. rewrite String.eqb_refl. simpl.
  apply app_nil_r.
Qed.

Lemma create_then_delete_witness :
  collections (snd (delete_document_collection sample_ext "Docs" world_after_first))
  = Weaviate.delete (collections empty_world) "Docs".
Proof.
  apply (create_then_delete sample_ext sample_ext ["a.txt"] "Docs" (Some 1024)
           (Some 200) empty_world world_after_first).
  - vm_compute. reflexivity.
  - vm_compute. reflexivity.
Defined.

(** ** The builders that persist to a directory *)

(** X9. On a directory that is not there, [build_automerging_index] returns
    and persists an index whose vector store holds the leaf nodes (each
    without a child, each also in the document store) and whose document
    store holds every node.  Any later call on that directory whose
    documents can be parsed returns that stored index and changes nothing,
    whatever documents and chunk sizes it is given. *)
Theorem build_automerging_index_fresh_then_reload (ext : externals)
    (documents : list document) (embed_model save_dir : string)
    (sizes : option (list nat)) (w : world) (nodes : list node) :
  persisted w !! save_dir = None ->
  hierarchical_parser ext (chunk_sizes_or_default sizes) documents = Ok nodes ->
  service_context ext = Ok tt ->
  let built := Index (get_leaf_nodes nodes) nodes in
  let w1 := set_persisted w (<[save_dir := built]> (persisted w)) in
  build_automerging_index ext documents tt embed_model save_dir sizes w = (Ok built, w1) /\
  Forall (fun n => node_has_child n = false /\ In n (idx_docstore built))
         (idx_vectors built) /\
  forall documents' embed_model' sizes' nodes',
    hierarchical_parser ext (chunk_sizes_or_default sizes') documents' = Ok nodes' ->
    build_automerging_index ext documents' tt embed_model' save_dir sizes' w1
    = (Ok built, w1).
Proof.
  intros Hfresh Hparse Hctx. cbn zeta.
  unfold build_automerging_index, persist, bind, call, get, modify, ret.
  split; [ | split ].
  - rewrite Hparse, Hctx, Hfresh. reflexivity.
  - apply List.Forall_forall. intros n Hin. simpl in Hin.
    unfold get_leaf_nodes in Hin. apply filter_In in Hin as [Hin Hleaf].
    split; [ | exact Hin ].
    destruct (node_has_child n); [ discriminate | reflexivity ].
  - intros documents' embed_model' sizes' nodes' Hparse'.
    rewrite Hparse', Hctx. simpl.
    rewrite lookup_insert_eq. reflexivity.
Qed.

Lemma build_automerging_index_fresh_then_reload_witness :
  let built := Index [Node "first text" "a.txt" false]
                     [Node "first text" "a.txt" false] in
  build_automerging_index sample_ext [Document "a.txt" "first text"] tt
    embed_model_name "merging_index" None empty_world
  = (Ok built,
     set_persisted empty_world (<["merging_index" := built]> (persisted empty_world))).
Proof.
  refine (proj1 (build_automerging_index_fresh_then_reload sample_ext
                   [Document "a.txt" "first text"] embed_model_name "merging_index"
                   None empty_world [Node "first text" "a.txt" false] _ _ _));
    reflexivity.
Defined.

(** X10. On a directory that is not there, [build_sentence_window_index]
    returns and persists the index of the nodes parsed from its document.
    Any later call on that directory returns that stored index and changes
    nothing, whatever document it is given. *)
Theorem build_sentence_window_index_fresh_then_reload (ext : externals)
    (doc : document) (embed_model save_dir : string) (w : world) (nodes : list node) :
  persisted w !! save_dir = None ->
  sentence_window_parser ext [doc] = Ok nodes ->
  service_context ext = Ok tt ->
  let built := Index nodes nodes in
  let w1 := set_persisted w (<[save_dir := built]> (persisted w)) in
  build_sentence_window_index ext doc tt embed_model save_dir w = (Ok built, w1) /\
  forall doc' embed_model',
    build_sentence_window_index ext doc' tt embed_model' save_dir w1 = (Ok built, w1).
Proof.
  intros Hfresh Hparse Hctx. cbn zeta.
  unfold build_sentence_window_index, persist, bind, call, get, modify, ret.
  split.
  - rewrite Hctx, Hfresh, Hparse. reflexivity.
  - intros doc' embed_model'. rewrite Hctx. simpl.
    rewrite lookup_insert_eq. reflexivity.
Qed.

Lemma build_sentence_window_index_fresh_then_reload_witness :
  let built := Index [Node "first text" "a.txt" false]
                     [Node "first text" "a.txt" false] in
  build_sentence_window_index sample_ext (Document "a.txt" "first text") tt
    embed_model_name "sentence_index" empty_world
  = (Ok built,
     set_persisted empty_world (<["sentence_index" := built]> (persisted empty_world))).
Proof.
  refine (proj1 (build_sentence_window_index_fresh_then_reload sample_ext
                   (Document "a.txt" "first text") embed_model_name "sentence_index"
                   empty_world [Node "first text" "a.txt" false] _ _ _));
    reflexivity.
Defined.


(** X12. The two builders differ on a directory that is already there.
    [build_automerging_index] parses its documents before it looks at the
    directory, so a parser failure makes it raise although nothing would
    have been built; [build_sentence_window_index] looks first and returns
    the stored index without parsing. *)
Theorem persisted_directory_and_parser_failure (ext : externals)
    (save_dir : string) (w : world) (stored : index) :
  persisted w !! save_dir = Some stored ->
  (forall documents embed_model sizes e,
     hierarchical_parser ext (chunk_sizes_or_default sizes) documents = Raise e ->
     build_automerging_index ext documents tt embed_model save_dir sizes w
     = (Raise e, w)) /\
  (forall doc embed_model,
     service_context ext = Ok tt ->
     build_sentence_window_index ext doc tt embed_model save_dir w = (Ok stored, w)).
Proof.
  intros Hp. split.
  - intros documents embed_model sizes e Hparse.
    unfold build_automerging_index, bind, call. rewrite Hparse. reflexivity.
  - intros doc embed_model Hctx.
    unfold build_sentence_window_index, bind, call, get, ret.
    rewrite Hctx, Hp. reflexivity.
Qed.

Lemma persisted_directory_and_parser_failure_witness :
  build_automerging_index unparsable_ext [Document "a.txt" "new text"] tt
    embed_model_name "merging_index" None world_with_index
  = (Raise (Exn ValueError "cannot parse"), world_with_index) /\
  build_sentence_window_index unparsable_ext (Document "a.txt" "new text") tt
    embed_model_name "merging_index" world_with_index
  = (Ok stored_index, world_with_index).
Proof.
  destruct (persisted_directory_and_parser_failure unparsable_ext "merging_index"
              world_with_index stored_index) as [Hauto Hsent].
  - apply lookup_insert_eq.
  - split.
    + apply Hauto. reflexivity.
    + apply Hsent. reflexivity.
Defined.

(** ** [/build-index]: what a success means *)

(** X13. The [/build-index] handler answers with a success only for
    [index_type] "basic": the input files then resolved to a non-empty
    list, [num_files] is its length, the message names the index, and the
    fixed-size builder returned on exactly these files with the chunk size
    and overlap of the request. *)
Theorem build_index_api_success (ext : externals) (fs : Fs.fsys)
    (request : BuildIndexRequest) (w w' : world) (message : string) (n : nat) :
  build_index_api ext fs request w = (BuildSuccess message n, w') ->
  index_type request = "basic" /\
  exists files,
    resolve_input_files fs request = Ok files /\
    files <> [] /\
    n = List.length files /\
    message = "Index '" +:+ index_name request +:+ "' built successfully" /\
    build_basic_fixed_size_index ext files (index_name request)
      (chunk_size request) (chunk_overlap request) w = (Ok tt, w').
Proof.
  unfold build_index_api, build_index_api_try, bind, call, ret.
  destruct (resolve_input_files fs request) as [ [ | f files ] | e ]; simpl;
    try discriminate.
  unfold build_index_dispatch.
  destruct (String.eqb_spec (index_type request) "basic") as [Hb | Hb].
  - destruct (build_basic_fixed_size_index ext (f :: files) (index_name request)
                (chunk_size request) (chunk_overlap request) w) as [[[] | e] w1] eqn:E;
      simpl; [ | discriminate ].
    intros H. injection H as <- <- <-.
    split; [ exact Hb | ].
    exists (f :: files).
    split; [ reflexivity | ]. split; [ discriminate | ].
    split; [ reflexivity | ]. split; [ reflexivity | exact E ].
  - destruct (String.eqb (index_type request) "automerging"); [ discriminate | ].
    destruct (String.eqb (index_type request) "sentence_window"); discriminate.
Qed.

Lemma build_index_api_success_witness :
  index_type (sample_request (PathList ["a.txt"]) "basic") = "basic" /\
  exists files,
    resolve_input_files sample_fs (sample_request (PathList ["a.txt"]) "basic")
    = Ok files /\
    files <> [] /\
    1 = List.length files /\
    "Index 'Docs' built successfully" = "Index '" +:+ "Docs" +:+ "' built successfully" /\
    build_basic_fixed_size_index sample_ext files "Docs" (Some 1024) (Some 200)
      empty_world
    = (Ok tt, world_after_first).
Proof.
  apply (build_index_api_success sample_ext sample_fs
           (sample_request (PathList ["a.txt"]) "basic") empty_world world_after_first
           "Index 'Docs' built successfully" 1).
  vm_compute. reflexivity.
Defined.

(** ** [get_all_files_from_directory]: the paths it returns *)

Lemma walk_snoc (n : string) :
  n <> ".." ->
  forall (xs : list string) (up : list Fs.fnode) (cur : Fs.fnode),
    Fs.walk up cur (xs ++ [n])
    = match Fs.walk up cur xs with
      | Some (Fs.Directory es) => Fs.assoc n es
      | _ => None
      end.
Proof.
  intros Hn. apply String.eqb_neq in Hn.
  induction xs as [ | c xs IH ]; intros up cur; simpl.
  - destruct cur as [ | es | ]; try reflexivity.
    rewrite Hn. destruct (Fs.assoc n es); reflexivity.
  - destruct cur as [ | es | ]; try reflexivity.
    destruct (String.eqb c "..").
    + destruct up; apply IH.
    + destruct (Fs.assoc c es); [ apply IH | reflexivity ].
Qed.

Lemma assoc_in (entries : list (string * Fs.fnode)) (n : string) (x : Fs.fnode) :
  List.NoDup (map fst entries) -> In (n, x) entries -> Fs.assoc n entries = Some x.
Proof.
  induction entries as [ | [m y] es IH ]; simpl; intros Hnd Hin; [ contradiction | ].
  inversion Hnd as [ | ? ? Hnotin Hnd' ]; subst.
  destruct Hin as [Heq | Hin].
  - injection Heq as -> ->. rewrite String.eqb_refl. reflexivity.
  - destruct (String.eqb_spec m n) as [-> | Hne].
    + exfalso. apply Hnotin. apply (in_map fst) in Hin. exact Hin.
    + apply IH; assumption.
Qed.

Lemma resolve_child (fs : Fs.fsys) (q : Fs.path) (entries : list (string * Fs.fnode))
    (n : string) :
  Fs.resolve fs q = Some (Fs.Directory entries) ->
  n <> ".." ->
  Fs.resolve fs (Fs.child q n) = Fs.assoc n entries.
Proof.
  unfold Fs.resolve, Fs.child. simpl. intros Hres Hn.
  rewrite app_assoc, (walk_snoc n Hn), Hres. reflexivity.
Qed.

(** X14. Read literally, the comprehension of
    [get_all_files_from_directory] tests [file.is_file()] on each child
    path, resolving the path again.  In a directory whose entries have
    distinct names the result is exactly that: the strings of the child
    paths that resolve to a regular file. *)
Theorem get_all_files_from_directory_is_file (fs : Fs.fsys) (p : string)
    (entries : list (string * Fs.fnode)) :
  Fs.resolve fs (Fs.parse p) = Some (Fs.Directory entries) ->
  List.NoDup (map fst entries) ->
  ~ In ".." (map fst entries) ->
  get_all_files_from_directory fs p
  = Ok (map Fs.str
          (List.filter (path_is_file fs)
             (map (fun e => Fs.child (Fs.parse p) (fst e)) entries))).
Proof.
  intros Hres Hnd Hdots.
  unfold get_all_files_from_directory.
  rewrite exists_and_is_dir. unfold Fs.is_dir, Fs.glob_star. rewrite Hres. simpl.
  f_equal.
  assert (forall l, (forall e, In e l -> In e entries) ->
            map (fun file : Fs.path * Fs.fnode => Fs.str (fst file))
              (List.filter (fun file => Fs.node_is_file (snd file))
                 (map (fun e => (Fs.child (Fs.parse p) (fst e), snd e)) l))
            = map Fs.str
                (List.filter (path_is_file fs)
                   (map (fun e => Fs.child (Fs.parse p) (fst e)) l))) as Hgen.
  { induction l as [ | [n x] l IH ]; intros Hsub; simpl; [ reflexivity | ].
    assert (path_is_file fs (Fs.child (Fs.parse p) n) = Fs.node_is_file x) as ->.
    { unfold path_is_file.
      rewrite (resolve_child fs _ entries n Hres).
      - rewrite (assoc_in entries n x Hnd); [ reflexivity | ].
        apply Hsub. left. reflexivity.
      - intros ->. apply Hdots.
        apply (in_map fst) with (x := ("..", x)). apply Hsub. left. reflexivity. }
    destruct (Fs.node_is_file x); simpl; rewrite IH;
      try reflexivity; intros e He; apply Hsub; right; exact He. }
  apply Hgen. auto.
Qed.

Lemma get_all_files_from_directory_is_file_witness :
  get_all_files_from_directory sample_fs "/data"
  = Ok (map Fs.str
          (List.filter (path_is_file sample_fs)
             [ Fs.Path true ["data"; "a.txt"]; Fs.Path true ["data"; "sub"];
               Fs.Path true ["data"; "b.md"]; Fs.Path true ["data"; "sock"] ])).
Proof.
  apply (get_all_files_from_directory_is_file sample_fs "/data" _ eq_refl).
  - repeat constructor; simpl; intuition discriminate.
  - simpl. intuition discriminate.
Defined.

Lemma join_snoc (ps : list string) (c n : string) :
  Fs.join ((c :: ps) ++ [n]) = Fs.join (c :: ps) +:+ "/" +:+ n.
Proof.
  revert c. induction ps as [ | d ps IH ]; intros c.
  - reflexivity.
  - change (Fs.join ((c :: d :: ps) ++ [n]))
      with (c +:+ "/" +:+ Fs.join ((d :: ps) ++ [n])).
    rewrite IH.
    change (Fs.join (c :: d :: ps)) with (c +:+ "/" +:+ Fs.join (d :: ps)).
    rewrite !append_assoc. reflexivity.
Qed.

Lemma append_cancel_l (a b c : string) : a +:+ b = a +:+ c -> b = c.
Proof.
  induction a as [ | x a IH ]; intros H; [ exact H | ].
  change (String x (a +:+ b) = String x (a +:+ c)) in H.
  injection H as H. apply IH. exact H.
Qed.

(** The string of a child is a prefix fixed by the directory, then the
    name. *)
Lemma str_child (q : Fs.path) :
  exists prefix, forall n, Fs.str (Fs.child q n) = prefix +:+ n.
Proof.
  destruct q as [[ | ] [ | c ps ]].
  - exists "/". reflexivity.
  - exists ("/" +:+ Fs.join (c :: ps) +:+ "/"). intros n.
    change (Fs.str (Fs.child (Fs.Path true (c :: ps)) n))
      with ("/" +:+ Fs.join ((c :: ps) ++ [n])).
    rewrite join_snoc, !append_assoc. reflexivity.
  - exists "". reflexivity.
  - exists (Fs.join (c :: ps) +:+ "/"). intros n.
    change (Fs.str (Fs.child (Fs.Path false (c :: ps)) n))
      with (Fs.join ((c :: ps) ++ [n])).
    rewrite join_snoc, !append_assoc. reflexivity.
Qed.

Lemma NoDup_map_fst_filter {A B} (f : A * B -> bool) (l : list (A * B)) :
  List.NoDup (map fst l) -> List.NoDup (map fst (List.filter f l)).
Proof.
  induction l as [ | e l IH ]; simpl; intros H; [ constructor | ].
  inversion H as [ | ? ? Hnotin Hnd ]; subst.
  destruct (f e); simpl; [ | apply IH; exact Hnd ].
  constructor; [ | apply IH; exact Hnd ].
  intros Hin. apply Hnotin.
  apply in_map_iff in Hin as (e' & He' & Hin').
  apply filter_In in Hin' as [Hin' _].
  rewrite <- He'. apply in_map. exact Hin'.
Qed.

Lemma NoDup_map_prefix (prefix : string) (l : list string) :
  List.NoDup l -> List.NoDup (map (fun n => prefix +:+ n) l).
Proof.
  induction 1 as [ | n l Hnotin Hnd IH ]; simpl; constructor; [ | exact IH ].
  intros Hin. apply Hnotin.
  apply in_map_iff in Hin as (m & Heq & Hm).
  apply append_cancel_l in Heq. subst m. exact Hm.
Qed.

(** X15. In a directory whose entries have distinct names,
    [get_all_files_from_directory] returns no path twice, and no more paths
    than the directory has entries. *)
Theorem get_all_files_from_directory_no_duplicates (fs : Fs.fsys) (p : string)
    (entries : list (string * Fs.fnode)) (files : list string) :
  Fs.resolve fs (Fs.parse p) = Some (Fs.Directory entries) ->
  List.NoDup (map fst entries) ->
  get_all_files_from_directory fs p = Ok files ->
  List.NoDup files /\ List.length files <= List.length entries.
Proof.
  intros Hres Hnd.
  unfold get_all_files_from_directory.
  rewrite exists_and_is_dir. unfold Fs.is_dir, Fs.glob_star. rewrite Hres. simpl.
  intros H. injection H as <-.
  destruct (str_child (Fs.parse p)) as [prefix Hprefix].
  assert (forall l : list (string * Fs.fnode),
            map (fun file : Fs.path * Fs.fnode => Fs.str (fst file))
              (List.filter (fun file => Fs.node_is_file (snd file))
                 (map (fun e => (Fs.child (Fs.parse p) (fst e), snd e)) l))
            = map (fun n => prefix +:+ n)
                (map fst (List.filter (fun e => Fs.node_is_file (snd e)) l))) as Hshape.
  { induction l as [ | [n x] l IH ]; simpl; [ reflexivity | ].
    destruct (Fs.node_is_file x); simpl; rewrite IH; [ rewrite Hprefix | ];
      reflexivity. }
  rewrite Hshape. split.
  - apply NoDup_map_prefix, NoDup_map_fst_filter. exact Hnd.
  - rewrite !length_map. apply List.filter_length_le.
Qed.

Lemma get_all_files_from_directory_no_duplicates_witness :
  get_all_files_from_directory sample_fs "/data" = Ok ["/data/a.txt"; "/data/b.md"] /\
  List.NoDup ["/data/a.txt"; "/data/b.md"].
Proof.
  split; [ reflexivity | ].
  refine (proj1 (get_all_files_from_directory_no_duplicates sample_fs "/data"
                   _ ["/data/a.txt"; "/data/b.md"] eq_refl _ eq_refl)).
  repeat constructor; simpl; intuition discriminate.
Defined.

(** ** The streaming handlers: complete runs and late failures *)

(** X16. A [/chat] request whose file name can be made, whose model stream
    does not fail and whose transcript can be opened runs to its end: the
    fragments of the model are sent in order, then the transcript is
    written with their concatenation as the answer, and nothing else
    happens. *)
Theorem chat_stream_completes (sv : services) (request : ChatRequest) (fuel : nat)
    (file_name : string) :
  make_file_name sv "Chat" (c_question request) = Ok file_name ->
  let file := os_path_join (c_chat_record_dir request) (file_name +:+ ".md") in
  let response := model_stream sv (c_question request) in
  failure response = None ->
  open_fault sv file = None ->
  List.length (chunks response) <= fuel ->
  serve (S fuel) (chat_with_llm_api sv request)
  = Streamed Completed
      (map Sent (chunks response)
       ++ [Wrote file (chat_transcript file_name (c_question request)
                         (concat_str (chunks response)))]).
Proof.
  intros Hname file response Hfail Hopen Hfuel.
  destruct (serve_chat sv request fuel file_name Hname)
    as (how & tr & Hserve & Hend & _).
  specialize (Hend Hfuel). unfold loop_end in Hend.
  fold file in Hend. fold response in Hend.
  rewrite Hfail, Hopen in Hend. injection Hend as -> ->.
  exact Hserve.
Qed.

Lemma chat_stream_completes_witness :
  serve 5 (chat_with_llm_api sample_services sample_chat)
  = Streamed Completed
      [ Sent "Par"; Sent "is";
        Wrote "/records/20240101-Chat-capital.md"
          (chat_transcript "20240101-Chat-capital" "Hello" "Paris") ].
Proof.
  apply (chat_stream_completes sample_services sample_chat 4 "20240101-Chat-capital");
    try reflexivity.
  simpl. lia.
Defined.

(** X17. A [/query] request whose file name can be made, whose retrieval
    and source listing return, whose model stream does not fail and whose
    transcript can be opened runs to its end: the number of source nodes is
    printed, the fragments of the model are sent in order, then the
    transcript is written with their concatenation as the answer and the
    source listing. *)
Theorem query_stream_completes (sv : services) (request : QueryRequest) (fuel : nat)
    (file_name : string) (source_nodes : list source_node) (print_data : string) :
  make_file_name sv "RAG" (q_question request) = Ok file_name ->
  basic_query_from_documents sv (q_question request) (q_index_names request)
    (q_similarity_top_k request) = Ok source_nodes ->
  print_data_sources sv source_nodes = Ok print_data ->
  let file := os_path_join (q_chat_record_dir request) (file_name +:+ ".md") in
  let response :=
    model_stream sv (query_prompt (str_join nl (map sn_text source_nodes))
                       (q_question request)) in
  failure response = None ->
  open_fault sv file = None ->
  List.length (chunks response) <= fuel ->
  serve (S fuel) (query_from_documents_api sv request)
  = Streamed Completed
      (Printed ("Number of source nodes: " +:+ pretty (List.length source_nodes))
       :: map Sent (chunks response)
       ++ [Wrote file (query_transcript file_name (q_question request) print_data
                         (concat_str (chunks response)))]).
Proof.
  intros Hname Hquery Hprint file response Hfail Hopen Hfuel.
  destruct (serve_query sv request fuel file_name source_nodes print_data
              Hname Hquery Hprint) as (how & tr & Hserve & Hend & _).
  specialize (Hend Hfuel). unfold loop_end in Hend.
  fold file in Hend. fold response in Hend.
  rewrite Hfail, Hopen in Hend. injection Hend as -> ->.
  exact Hserve.
Qed.

Lemma query_stream_completes_witness :
  serve 5 (query_from_documents_api sample_services sample_query)
  = Streamed Completed
      [ Printed "Number of source nodes: 1"; Sent "Par"; Sent "is";
        Wrote "/records/20240101-RAG-capital.md"
          (query_transcript "20240101-RAG-capital" "What is the capital of France?"
             "sources" "Paris") ].
Proof.
  apply (query_stream_completes sample_services sample_query 4 "20240101-RAG-capital"
           [SourceNode "Paris is the capital of France." "docs"] "sources");
    try reflexivity.
  simpl. lia.
Defined.

(** X18. The transcript file is opened only after the loop.  When it cannot
    be opened (the record directory is missing, say), a [/chat] or [/query]
    request has by then sent every fragment of the answer; the stream then
    ends with that exception and no transcript is written. *)
Theorem transcript_open_failure (sv : services) (fuel : nat) :
  (forall request file_name e,
     make_file_name sv "Chat" (c_question request) = Ok file_name ->
     failure (model_stream sv (c_question request)) = None ->
     open_fault sv (os_path_join (c_chat_record_dir request) (file_name +:+ ".md"))
     = Some e ->
     List.length (chunks (model_stream sv (c_question request))) <= fuel ->
     exists tr,
       serve (S fuel) (chat_with_llm_api sv request) = Streamed (Aborted e) tr /\
       fragments_sent tr = chunks (model_stream sv (c_question request)) /\
       files_written tr = []) /\
  (forall request file_name source_nodes print_data e,
     make_file_name sv "RAG" (q_question request) = Ok file_name ->
     basic_query_from_documents sv (q_question request) (q_index_names request)
       (q_similarity_top_k request) = Ok source_nodes ->
     print_data_sources sv source_nodes = Ok print_data ->
     let response :=
       model_stream sv (query_prompt (str_join nl (map sn_text source_nodes))
                          (q_question request)) in
     failure response = None ->
     open_fault sv (os_path_join (q_chat_record_dir request) (file_name +:+ ".md"))
     = Some e ->
     List.length (chunks response) <= fuel ->
     exists tr,
       serve (S fuel) (query_from_documents_api sv request) = Streamed (Aborted e) tr /\
       fragments_sent tr = chunks response /\
       files_written tr = []).
Proof.
  split.
  - intros request file_name e Hname Hfail Hopen Hfuel.
    destruct (serve_chat sv request fuel file_name Hname)
      as (how & tr & Hserve & Hend & _).
    specialize (Hend Hfuel). unfold loop_end in Hend.
    rewrite Hfail, Hopen in Hend. injection Hend as -> ->.
    eexists. split; [ exact Hserve | ].
    split; [ apply fragments_sent_map | apply files_written_map ].
  - intros request file_name source_nodes print_data e Hname Hquery Hprint
      response Hfail Hopen Hfuel.
    destruct (serve_query sv request fuel file_name source_nodes print_data
                Hname Hquery Hprint) as (how & tr & Hserve & Hend & _).
    specialize (Hend Hfuel). unfold loop_end in Hend. fold response in Hend.
    rewrite Hfail, Hopen in Hend. injection Hend as -> ->.
    eexists. split; [ exact Hserve | ].
    split; [ apply fragments_sent_map | apply files_written_map ].
Qed.

Lemma transcript_open_failure_witness :
  exists tr,
    serve 5 (chat_with_llm_api unwritable_services sample_chat)
    = Streamed (Aborted (Exn OSError "No such file or directory")) tr /\
    fragments_sent tr = ["Par"; "is"] /\
    files_written tr = [].
Proof.
  apply (proj1 (transcript_open_failure unwritable_services 4) sample_chat
           "20240101-Chat-capital" (Exn OSError "No such file or directory"));
    try reflexivity.
  simpl. lia.
Defined.

(** X19. The retrieval of [/query] runs inside the generator.  When it
    raises (or the source listing does), the handler has already returned
    its streaming response: the body ends with that exception before any
    fragment is sent, and nothing is printed or written. *)
Theorem query_retrieval_failure (sv : services) (request : QueryRequest)
    (fuel : nat) (file_name : string) :
  make_file_name sv "RAG" (q_question request) = Ok file_name ->
  (forall e,
     basic_query_from_documents sv (q_question request) (q_index_names request)
       (q_similarity_top_k request) = Raise e ->
     (exists body, query_from_documents_api sv request = StreamingResponse body) /\
     serve (S fuel) (query_from_documents_api sv request) = Streamed (Aborted e) []) /\
  (forall source_nodes e,
     basic_query_from_documents sv (q_question request) (q_index_names request)
       (q_similarity_top_k request) = Ok source_nodes ->
     print_data_sources sv source_nodes = Raise e ->
     serve (S fuel) (query_from_documents_api sv request) = Streamed (Aborted e) []).
Proof.
  intros Hname. split.
  - intros e Hquery.
    destruct (serve_query_retrieval_failure sv request fuel file_name e Hname Hquery)
      as [Hresp Hserve].
    split; [ eauto | exact Hserve ].
  - intros source_nodes e Hquery Hprint.
    apply (serve_query_print_failure sv request fuel file_name source_nodes e
             Hname Hquery Hprint).
Qed.

Lemma query_retrieval_failure_witness :
  (exists body,
     query_from_documents_api unknown_index_services sample_query
     = StreamingResponse body) /\
  serve 5 (query_from_documents_api unknown_index_services sample_query)
  = Streamed (Aborted (Exn LookupError "unknown index")) [].
Proof.
  apply (proj1 (query_retrieval_failure unknown_index_services sample_query 4
                  "20240101-RAG-capital" eq_refl)).
  reflexivity.
Defined.

(** X20. For [/chat], a failure while the file name is made is answered with
    HTTP 500 and the message of the exception.  A failure of the model's
    stream is not: the fragments given before it have been sent, the stream
    ends there and no transcript is written. *)
Theorem chat_failures (sv : services) (request : ChatRequest) :
  (forall e,
     make_file_name sv "Chat" (c_question request) = Raise e ->
     forall fuel,
       serve fuel (chat_with_llm_api sv request) = ErrorResponse 500 (str_of_exn e)) /\
  (forall file_name cs e fuel,
     make_file_name sv "Chat" (c_question request) = Ok file_name ->
     model_stream sv (c_question request) = LlmStream cs (Some e) ->
     List.length cs <= fuel ->
     exists tr,
       serve (S fuel) (chat_with_llm_api sv request) = Streamed (Aborted e) tr /\
       fragments_sent tr = cs /\
       files_written tr = []).
Proof.
  split.
  - intros e Hname fuel. unfold chat_with_llm_api. rewrite Hname. reflexivity.
  - intros file_name cs e fuel Hname Hs Hfuel.
    destruct (serve_chat sv request fuel file_name Hname)
      as (how & tr & Hserve & Hend & _).
    rewrite Hs in Hend. specialize (Hend Hfuel).
    unfold loop_end in Hend. cbn [failure chunks] in Hend.
    injection Hend as -> ->.
    eexists. split; [ exact Hserve | ].
    split; [ apply fragments_sent_map | apply files_written_map ].
Qed.

Lemma chat_failures_witness :
  exists tr,
    serve 5 (chat_with_llm_api breaking_services sample_chat)
    = Streamed (Aborted (Exn RuntimeError "connection reset")) tr /\
    fragments_sent tr = ["Par"] /\
    files_written tr = [].
Proof.
  apply (proj2 (chat_failures breaking_services sample_chat)
           "20240101-Chat-capital" ["Par"] (Exn RuntimeError "connection reset") 4);
    try reflexivity.
  simpl. lia.
Defined.
